(** * BloggingApp: the users API (routes/userRoutes.js) and its pipeline

    A shallow embedding of the six route handlers of the users router, of
    the calls they make into bcrypt and jsonwebtoken, and of the
    collaborators they reach (controller, validators, authorization
    middleware, error handlers).  JavaScript objects are association
    lists, exceptions are the left summand of a state-and-error monad over
    the server's world, and a response is a status with a body. *)

From Stdlib Require Import ZArith List String Ascii Bool Lia.
From Stdlib Require Import DecimalString.
Import ListNotations.
Local Open Scope string_scope.
Local Open Scope Z_scope.
Set Warnings "-register-all".

(* ------------------------------------------------------------------ *)
(** ** JavaScript values *)

Inductive value : Type :=
| VUndefined
| VNull
| VBool (b : bool)
| VNum (n : Z)
| VStr (s : string)
| VArr (items : list value)
| VObj (fields : list (string * value)).

Record JsError := mkError { errName : string; errMessage : string }.

Definition Error (msg : string) : JsError := mkError "Error" msg.
Definition TypeError (msg : string) : JsError := mkError "TypeError" msg.
Definition ReferenceError (msg : string) : JsError := mkError "ReferenceError" msg.

Fixpoint assoc (k : string) (fs : list (string * value)) : option value :=
  match fs with
  | [] => None
  | (k', v) :: rest => if String.eqb k k' then Some v else assoc k rest
  end.

Fixpoint assocSet (k : string) (v : value) (fs : list (string * value))
  : list (string * value) :=
  match fs with
  | [] => [(k, v)]
  | (k', v') :: rest =>
      if String.eqb k k' then (k', v) :: rest else (k', v') :: assocSet k v rest
  end.

(** [o.k]: reading a property of [undefined] or [null] throws, a missing
    property reads as [undefined]. *)
Definition member (o : value) (k : string) : JsError + value :=
  match o with
  | VUndefined | VNull =>
      inl (TypeError ("Cannot read properties of undefined (reading '" ++ k ++ "')"))
  | VObj fs => inr (match assoc k fs with Some v => v | None => VUndefined end)
  | _ => inr VUndefined
  end.

(** [o.k = v] *)
Definition setMember (o : value) (k : string) (v : value) : JsError + value :=
  match o with
  | VUndefined | VNull =>
      inl (TypeError ("Cannot set properties of undefined (setting '" ++ k ++ "')"))
  | VObj fs => inr (VObj (assocSet k v fs))
  | other => inr other
  end.

(** [a[0]] *)
Definition index0 (a : value) : JsError + value :=
  match a with
  | VUndefined | VNull =>
      inl (TypeError "Cannot read properties of undefined (reading '0')")
  | VArr items => inr (nth 0 items VUndefined)
  | _ => inr VUndefined
  end.

(** The condition of [if (v)] and the operand of [!v]. *)
Definition truthy (v : value) : bool :=
  match v with
  | VUndefined | VNull => false
  | VBool b => b
  | VNum n => negb (Z.eqb n 0)
  | VStr s => negb (String.eqb s EmptyString)
  | VArr _ | VObj _ => true
  end.

(** [v === 0] *)
Definition strictEqZero (v : value) : bool :=
  match v with
  | VNum n => Z.eqb n 0
  | _ => false
  end.

(** Does a JSON body carry the property [k] at its top level? *)
Definition hasField (k : string) (v : value) : bool :=
  match v with
  | VObj fs => match assoc k fs with Some _ => true | None => false end
  | _ => false
  end.

(* ------------------------------------------------------------------ *)
(** ** Data model *)

Module User.
Record t := mk { id : Z; name : string; email : string; password : string }.
End User.

(** The object a persisted user record is read as.  The login route reads
    [user.id] and [user.password] from it. *)
Definition toObject (u : User.t) : value :=
  VObj [ ("id", VNum (User.id u));
         ("name", VStr (User.name u));
         ("email", VStr (User.email u));
         ("password", VStr (User.password u)) ].

Module Claims.
Record t := mk { id : value; iat : Z; exp : Z }.
End Claims.

Module Token.
Record t := mk { claims : Claims.t; signature : string }.
End Token.

Inductive DbCall : Type :=
| FindAll
| FindByPk (key : value)
| FindByEmail (addr : value)
| Create (data : value)
| Update (key : value) (data : value)
| Destroy (key : value).

(** The world a request runs in: the persisted users, whether the
    database answers, the next identity it hands out, the wall clock in
    milliseconds ([Date.now()]), [process.env.JWT_SECRET], the number of
    salts drawn so far, and the persistence calls made so far. *)
Record World := mkWorld {
  users : list User.t;
  dbUp : bool;
  nextId : Z;
  clock : Z;
  JWT_SECRET : option string;
  drawn : nat;
  dbLog : list DbCall
}.

Definition logCall (c : DbCall) (w : World) : World :=
  mkWorld (users w) (dbUp w) (nextId w) (clock w) (JWT_SECRET w) (drawn w)
          (dbLog w ++ [c]).

Definition setUsers (us : list User.t) (w : World) : World :=
  mkWorld us (dbUp w) (nextId w) (clock w) (JWT_SECRET w) (drawn w) (dbLog w).

Definition bumpId (w : World) : World :=
  mkWorld (users w) (dbUp w) (nextId w + 1) (clock w) (JWT_SECRET w) (drawn w)
          (dbLog w).

Definition drawSalt (w : World) : World :=
  mkWorld (users w) (dbUp w) (nextId w) (clock w) (JWT_SECRET w) (S (drawn w))
          (dbLog w).

(* ------------------------------------------------------------------ *)
(** ** Effects: state threaded through, exceptions on the left *)

Definition M (A : Type) : Type := World -> (JsError + A) * World.

Definition ret {A} (a : A) : M A := fun w => (inr a, w).

Definition throw {A} (e : JsError) : M A := fun w => (inl e, w).

Definition bind {A B} (m : M A) (k : A -> M B) : M B :=
  fun w =>
    match m w with
    | (inr a, w') => k a w'
    | (inl e, w') => (inl e, w')
    end.

Definition lift {A} (r : JsError + A) : M A := fun w => (r, w).

Definition ask : M World := fun w => (inr w, w).

Notation "x <- m ;; k" := (bind m (fun x => k))
  (at level 61, m at next level, right associativity).

(* ------------------------------------------------------------------ *)
(** ** HTTP requests, responses and what a handler ends in *)

Inductive Method := GET | POST | PUT | DELETE.

(** [path] is the list of segments after the mount point [/api/users];
    [authorization] is the token found in the request's designated
    header, if any; [userId] is the identity the authorization
    middleware attaches. *)
Record Request := mkRequest {
  method : Method;
  path : list string;
  body : value;
  authorization : option Token.t;
  userId : value
}.

(** [req.params.id] on the routes declared with [/:id]. *)
Definition params_id (req : Request) : value :=
  match path req with
  | [s] => VStr s
  | _ => VUndefined
  end.

Inductive Body : Type :=
| Empty
| Text (s : string)
| Json (v : value).

Record Response := mkResponse { status : Z; content : Body }.

(** [res.send(obj)] with the default status. *)
Definition send (v : value) : Response := mkResponse 200 (Json v).

(** [res.status(code).json(obj)] *)
Definition status_json (code : Z) (v : value) : Response :=
  mkResponse code (Json v).

Definition statusText (code : Z) : string :=
  if Z.eqb code 404 then "Not Found"
  else if Z.eqb code 401 then "Unauthorized"
  else if Z.eqb code 500 then "Internal Server Error"
  else EmptyString.

(** [res.sendStatus(code)]: the status with its reason phrase as a text
    body. *)
Definition sendStatus (code : Z) : Response :=
  mkResponse code (Text (statusText code)).

(** How an [async (req, res[, next]) => { try {..} catch(err) { next(err) } }]
    ends: a response was sent, the error was handed to [next], or the
    returned promise was rejected with no one to handle it. *)
Inductive Outcome : Type :=
| Sent (r : Response)
| Forwarded (err : JsError)
| Unhandled (err : JsError).

(** The parameter list a handler is declared with. *)
Inductive Params := ReqRes | ReqResNext.

(** Evaluating [next(err)] inside the handler: [next] is bound only when
    the handler declares it; the module defines no other [next]. *)
Definition callNext (ps : Params) (err : JsError) : Outcome :=
  match ps with
  | ReqResNext => Forwarded err
  | ReqRes => Unhandled (ReferenceError "next is not defined")
  end.

Definition asyncHandler (ps : Params) (tryBlock : M Response)
  : World -> Outcome * World :=
  fun w =>
    match tryBlock w with
    | (inr r, w') => (Sent r, w')
    | (inl err, w') => (callNext ps err, w')
    end.

(* ------------------------------------------------------------------ *)
(** ** The cryptographic primitives behind bcrypt and jsonwebtoken

    The primitives themselves are native code of the two packages; the
    routes only depend on them through the wrappers below, so they are
    left abstract:  [hs256 secret claims] is the HMAC-SHA256 signature of
    the encoded header and claims, [compact] the dot-separated base64url
    string a token is handed out as, [genSalt rounds n] the salt produced
    by the [n]-th draw of the random source, [encrypt data salt] the
    bcrypt string of [data] under [salt], and [compare data hash] the
    native comparison. *)

Class Crypto := {
  hs256 : string -> Claims.t -> string;
  compact : Token.t -> string;
  genSalt : Z -> nat -> string;
  encrypt : string -> string -> string;
  compare : string -> string -> bool
}.

Section Bcrypt.
Context `{Crypto}.

(** [bcrypt.hashSync(data, rounds)] called with a number of rounds: the
    argument checks of the wrapper, a fresh salt, the native hash. *)
Definition hashSync (data : value) (rounds : Z) : M string :=
  match data with
  | VUndefined | VNull => throw (Error "data and salt arguments required")
  | VStr s =>
      fun w => (inr (encrypt s (genSalt rounds (drawn w))), drawSalt w)
  | _ => throw (Error "data must be a string or Buffer and salt must either be a salt string or a number of rounds")
  end.

(** [bcrypt.compareSync(data, hash)] *)
Definition compareSync (data hash : value) : M bool :=
  match data, hash with
  | VUndefined, _ | VNull, _ | _, VUndefined | _, VNull =>
      throw (Error "data and hash arguments required")
  | VStr d, VStr h => ret (compare d h)
  | _, _ => throw (Error "data must be a string or Buffer and hash must be a string")
  end.
End Bcrypt.

Definition saltRounds : Z := 10.

(* ------------------------------------------------------------------ *)
(** ** jsonwebtoken *)

Definition isDigit (c : ascii) : bool :=
  let n := nat_of_ascii c in (Nat.leb 48 n && Nat.leb n 57)%bool.

Definition digitVal (c : ascii) : Z := Z.of_nat (nat_of_ascii c) - 48.

(** Leading decimal digits of [s] and what follows them. *)
Fixpoint spanDigits (s : string) (acc : Z) (seen : bool) : option Z * string :=
  match s with
  | String c rest =>
      if isDigit c then spanDigits rest (10 * acc + digitVal c) true
      else ((if seen then Some acc else None), s)
  | EmptyString => ((if seen then Some acc else None), s)
  end.

(** The [ms] package on the time spans written as a whole number and a
    short unit: the number of milliseconds, or nothing when the string is
    not of that form. *)
Definition ms (span : string) : option Z :=
  match spanDigits span 0 false with
  | (Some n, unit) =>
      if String.eqb unit EmptyString then Some n
      else if String.eqb unit "ms" then Some n
      else if String.eqb unit "s" then Some (n * 1000)
      else if String.eqb unit "m" then Some (n * 60000)
      else if String.eqb unit "h" then Some (n * 3600000)
      else if String.eqb unit "d" then Some (n * 86400000)
      else None
  | (None, _) => None
  end.

Section Jwt.
Context `{Crypto}.

(** [jwt.sign(payload, secret, { expiresIn })] for a payload [{ id }]:
    refuses a missing or empty secret, stamps [iat] with the clock in
    whole seconds and [exp] with [iat] plus the span, and signs. *)
Definition jwt_sign (payloadId : value) (secret : option string)
           (expiresIn : string) : M Token.t :=
  match secret with
  | None => throw (Error "secretOrPrivateKey must have a value")
  | Some key =>
      if String.eqb key EmptyString then throw (Error "secretOrPrivateKey must have a value")
      else
        w <- ask ;;
        let timestamp := clock w / 1000 in
        match ms expiresIn with
        | None => throw (Error "expiresIn should be a number of seconds or string representing a timespan")
        | Some millis =>
            let c := Claims.mk payloadId timestamp (timestamp + millis / 1000) in
            ret (Token.mk c (hs256 key c))
        end
  end.

(** Token issuance as the login route performs it:
    [jwt.sign({ id: user.id }, process.env.JWT_SECRET, { expiresIn: "1h" })]. *)
Definition issue (uid : value) : M Token.t :=
  w <- ask ;;
  jwt_sign uid (JWT_SECRET w) "1h".

(** A token for [uid] signed under [key], stamped with the clock of [w]
    and expiring 3600 seconds later. *)
Definition issued (key : string) (w : World) (uid : value) : Token.t :=
  let c := Claims.mk uid (clock w / 1000) (clock w / 1000 + 3600) in
  Token.mk c (hs256 key c).
End Jwt.

(* ------------------------------------------------------------------ *)
(** ** Token verification and the authorization middleware *)

Inductive Verdict : Type :=
| Accepted (uid : value)
| Rejected.

Inductive Stage : Type :=
| Continue (req : Request)
| ShortCircuit (r : Response).

Section Auth.
Context `{Crypto}.

(** Modelled from the spec: auth/authMiddleware.js is not among the
    sources.  [verify] recomputes the signature over the claim and
    rejects when it does not match or when the current time (in
    seconds) has reached the expiration; otherwise it yields the user
    identity of the claim. *)
Definition verify (secret : string) (now : Z) (t : Token.t) : Verdict :=
  if String.eqb (Token.signature t) (hs256 secret (Token.claims t)) then
    if Z.leb (Claims.exp (Token.claims t)) now then Rejected
    else Accepted (Claims.id (Token.claims t))
  else Rejected.

Definition unauthorized : Response := mkResponse 401 Empty.

Definition attach (uid : value) (req : Request) : Request :=
  mkRequest (method req) (path req) (body req) (authorization req) uid.

(** Modelled from the spec: the middleware of auth/authMiddleware.js.
    It takes the token from the request; when there is none or [verify]
    rejects it, the request is answered with the unauthorized response;
    otherwise the identity is attached and the request goes on. *)
Definition verifyToken (req : Request) (w : World) : Stage :=
  match authorization req, JWT_SECRET w with
  | Some t, Some key =>
      match verify key (clock w / 1000) t with
      | Accepted uid => Continue (attach uid req)
      | Rejected => ShortCircuit unauthorized
      end
  | _, _ => ShortCircuit unauthorized
  end.
End Auth.

(* ------------------------------------------------------------------ *)
(** ** Request validation *)

Module FieldError.
Record t := mk { path : string; msg : string }.
End FieldError.

(** The validator chains of validators/ are not among the sources; the
    routes only use what [validationResult(req)] reports after the chain
    of the route has run, so each chain is a function from the request to
    the ordered list of its field errors. *)
Class Validators := {
  idParamValidator : Request -> list FieldError.t;
  userValidator : Request -> list FieldError.t;
  userUpdateValidator : Request -> list FieldError.t;
  userLoginValidator : Request -> list FieldError.t
}.

(** [validationResult(req)] on a route declared with [chain]. *)
Definition validationResult (chain : Request -> list FieldError.t)
           (req : Request) : list FieldError.t :=
  chain req.

(** [errors.isEmpty()] *)
Definition isEmpty (errors : list FieldError.t) : bool :=
  match errors with
  | [] => true
  | _ :: _ => false
  end.

Definition errorObject (e : FieldError.t) : value :=
  VObj [ ("msg", VStr (FieldError.msg e)); ("path", VStr (FieldError.path e)) ].

(** [errors.array()] *)
Definition array (errors : list FieldError.t) : value :=
  VArr (map errorObject errors).

(* ------------------------------------------------------------------ *)
(** ** The users controller *)

Module userController.

Definition connectionError : JsError :=
  mkError "SequelizeConnectionError" "connection refused".

Definition validationError : JsError :=
  mkError "SequelizeValidationError" "notNull Violation".

Definition uniqueError : JsError :=
  mkError "SequelizeUniqueConstraintError" "email must be unique".

(** One round trip to the database: the call is recorded, and it throws
    when the database does not answer. *)
Definition query {A} (c : DbCall) (run : World -> (JsError + A) * World) : M A :=
  fun w =>
    let w1 := logCall c w in
    if dbUp w1 then run w1 else (inl connectionError, w1).

(** A whole number written in decimal digits. *)
Definition toInt (s : string) : option Z :=
  match spanDigits s 0 false with
  | (Some n, EmptyString) => Some n
  | _ => None
  end.

Definition keyOf (key : value) : option Z :=
  match key with
  | VNum n => Some n
  | VStr s => toInt s
  | _ => None
  end.

Definition byKey (key : value) (u : User.t) : bool :=
  match keyOf key with
  | Some n => Z.eqb (User.id u) n
  | None => false
  end.

Definition byEmail (addr : value) (u : User.t) : bool :=
  match addr with
  | VStr e => String.eqb (User.email u) e
  | _ => false
  end.

Definition orNull (r : option User.t) : value :=
  match r with
  | Some u => toObject u
  | None => VNull
  end.

(** Modelled from the spec: controllers/userController.js is not among
    the sources.  The controller is the persistence boundary: create,
    read, update and delete keyed by the identity, returning the
    structured records, or nothing found, or the number of rows
    affected; the email is unique among users. *)
Definition getUsers : M value :=
  query FindAll (fun w => (inr (VArr (map toObject (users w))), w)).

Definition getUser (key : value) : M value :=
  query (FindByPk key)
        (fun w => (inr (orNull (find (byKey key) (users w))), w)).

(** Look up by email, exact match. *)
Definition getUserByEmail (addr : value) : M value :=
  query (FindByEmail addr)
        (fun w => (inr (orNull (find (byEmail addr) (users w))), w)).

Definition createUser (data : value) : M value :=
  query (Create data)
        (fun w =>
           match member data "name", member data "email", member data "password" with
           | inr (VStr n), inr (VStr e), inr (VStr p) =>
               if existsb (byEmail (VStr e)) (users w) then (inl uniqueError, w)
               else
                 let u := User.mk (nextId w) n e p in
                 (inr (toObject u), bumpId (setUsers (users w ++ [u]) w))
           | _, _, _ => (inl validationError, w)
           end).

Definition textOr (d : string) (r : JsError + value) : string :=
  match r with
  | inr (VStr s) => s
  | _ => d
  end.

Definition patch (data : value) (u : User.t) : User.t :=
  User.mk (User.id u)
          (textOr (User.name u) (member data "name"))
          (textOr (User.email u) (member data "email"))
          (textOr (User.password u) (member data "password")).

(** The result is the one-element array of the number of rows affected. *)
Definition updateUser (key : value) (data : value) : M value :=
  query (Update key data)
        (fun w =>
           match find (byKey key) (users w) with
           | None => (inr (VArr [VNum 0]), w)
           | Some u =>
               let u' := patch data u in
               if existsb (fun o => byEmail (VStr (User.email u')) o
                                    && negb (Z.eqb (User.id o) (User.id u)))%bool
                          (users w)
               then (inl uniqueError, w)
               else
                 (inr (VArr [VNum 1]),
                  setUsers (map (fun o => if byKey key o then u' else o) (users w)) w)
           end).

(** The result is the number of rows deleted. *)
Definition deleteUser (key : value) : M value :=
  query (Destroy key)
        (fun w =>
           let gone := filter (byKey key) (users w) in
           (inr (VNum (Z.of_nat (List.length gone))),
            setUsers (filter (fun o => negb (byKey key o)) (users w)) w)).

End userController.

(* ------------------------------------------------------------------ *)
(** ** routes/userRoutes.js *)

Definition ok (data : value) : Response :=
  send (VObj [ ("result", VNum 200); ("data", data) ]).

Definition errorsBody (errs : value) : value := VObj [ ("errors", errs) ].

(** What the client gets: a response, or none because the handler's
    promise was rejected and nothing answered. *)
Inductive Reply : Type :=
| Replied (r : Response)
| NoReply (err : JsError).

Section Routes.
Context `{Crypto} `{Validators}.

(** [router.get("/", verifyToken, async (req, res) => ..)] *)
Definition listUsers (req : Request) : World -> Outcome * World :=
  asyncHandler ReqRes
    (data <- userController.getUsers ;;
     ret (ok data)).

(** [router.get("/:id", idParamValidator, async (req, res) => ..)] *)
Definition fetchUser (req : Request) : World -> Outcome * World :=
  asyncHandler ReqRes
    (let errors := validationResult idParamValidator req in
     if isEmpty errors then
       data <- userController.getUser (params_id req) ;;
       if negb (truthy data) then ret (sendStatus 404)
       else ret (ok data)
     else ret (status_json 422 (errorsBody (array errors)))).

(** [router.post("/", userValidator, async (req, res, next) => ..)] *)
Definition createUser (req : Request) : World -> Outcome * World :=
  asyncHandler ReqResNext
    (let errors := validationResult userValidator req in
     if isEmpty errors then
       let user := body req in
       plain <- lift (member user "password") ;;
       hashed <- hashSync plain saltRounds ;;
       user <- lift (setMember user "password" (VStr hashed)) ;;
       data <- userController.createUser user ;;
       ret (ok data)
     else ret (status_json 422 (errorsBody (array errors)))).

(** [router.post("/login", userLoginValidator, async (req, res, next) => ..)] *)
Definition login (req : Request) : World -> Outcome * World :=
  asyncHandler ReqResNext
    (let errors := validationResult userLoginValidator req in
     addr <- lift (member (body req) "email") ;;
     user <- userController.getUserByEmail addr ;;
     if truthy user then
       plain <- lift (member (body req) "password") ;;
       stored <- lift (member user "password") ;;
       same <- compareSync plain stored ;;
       if same then
         uid <- lift (member user "id") ;;
         token <- issue uid ;;
         let payload := VObj [ ("token", VStr (compact token)); ("user", user) ] in
         ret (ok payload)
       else ret (status_json 404 (errorsBody (VArr [VStr "Invalid email or password"])))
     else ret (status_json 404 (errorsBody (array errors)))).

(** [router.put("/:id", userUpdateValidator, async (req, res) => ..)] *)
Definition updateUser (req : Request) : World -> Outcome * World :=
  asyncHandler ReqRes
    (let errors := validationResult userUpdateValidator req in
     if isEmpty errors then
       data <- userController.updateUser (params_id req) (body req) ;;
       first <- lift (index0 data) ;;
       if strictEqZero first then ret (sendStatus 404)
       else ret (ok data)
     else ret (status_json 422 (errorsBody (array errors)))).

(** [router.delete("/:id", idParamValidator, async (req, res) => ..)] *)
Definition deleteUser (req : Request) : World -> Outcome * World :=
  asyncHandler ReqRes
    (let errors := validationResult idParamValidator req in
     if isEmpty errors then
       data <- userController.deleteUser (params_id req) ;;
       if negb (truthy data) then ret (sendStatus 404)
       else ret (ok data)
     else ret (status_json 422 (errorsBody (array errors)))).

(** The router: the first route whose method and path match; a
    middleware placed before the handler may answer in its stead. *)
Definition router (req : Request) (w : World) : option (Outcome * World) :=
  match method req, path req with
  | GET, [] =>
      match verifyToken req w with
      | Continue req' => Some (listUsers req' w)
      | ShortCircuit r => Some (Sent r, w)
      end
  | GET, [_] => Some (fetchUser req w)
  | POST, [] => Some (createUser req w)
  | POST, ["login"] => Some (login req w)
  | PUT, [_] => Some (updateUser req w)
  | DELETE, [_] => Some (deleteUser req w)
  | _, _ => None
  end.

(* ---------------------------------------------------------------- *)
(** ** The application: the router, then the error handlers *)

(** Modelled from the spec: errors/errorHandler.js is not among the
    sources.  The last of the registered error handlers is the generic
    one: any failure that reaches it becomes an internal failure, with
    the detail withheld.  The three before it take the errors of their
    own kind (invalid JSON, unauthorized, not found), which the
    persistence and hashing steps do not raise. *)
Definition handleAllOtherErrors (err : JsError) : Response :=
  mkResponse 500 Empty.

(** Modelled from the spec: a request no route takes is not found. *)
Definition handleNotFound : Response := mkResponse 404 Empty.

(** The pipeline of the entry file for a request under [/api/users]: a
    response sent by the route is the reply; an error handed to [next]
    runs through the error handlers; the framework does not observe the
    promise an async handler returns, so a rejection leaves the request
    unanswered. *)
Definition app (req : Request) (w : World) : Reply * World :=
  match router req w with
  | Some (Sent r, w') => (Replied r, w')
  | Some (Forwarded err, w') => (Replied (handleAllOtherErrors err), w')
  | Some (Unhandled err, w') => (NoReply err, w')
  | None => (Replied handleNotFound, w)
  end.
End Routes.

(** The three responses the login route sends. *)
Section LoginResponses.
Context `{Crypto} `{Validators}.

Definition wrongPassword : Response :=
  status_json 404 (errorsBody (VArr [VStr "Invalid email or password"])).

Definition noSuchUser (req : Request) : Response :=
  status_json 404 (errorsBody (array (validationResult userLoginValidator req))).

Definition loggedIn (t : Token.t) (user : value) : Response :=
  ok (VObj [ ("token", VStr (compact t)); ("user", user) ]).
End LoginResponses.

(* ------------------------------------------------------------------ *)
(** ** Instances to run the model on *)

Fixpoint hasChar (c : ascii) (s : string) : bool :=
  match s with
  | EmptyString => false
  | String c' rest => (Ascii.eqb c c' || hasChar c rest)%bool
  end.

(** The text before and after the first [c] of [s]. *)
Fixpoint splitFirst (c : ascii) (s : string) : option (string * string) :=
  match s with
  | EmptyString => None
  | String c' rest =>
      if Ascii.eqb c c' then Some (EmptyString, rest)
      else match splitFirst c rest with
           | Some (l, r) => Some (String c' l, r)
           | None => None
           end
  end.

Definition nonEmpty (s : string) : bool := negb (String.eqb s EmptyString).

(** The shape [local@domain.tld], without blanks and with a single [@]. *)
Definition isEmail (s : string) : bool :=
  match splitFirst "@" s with
  | Some (loc, dom) =>
      (nonEmpty loc && negb (hasChar "@" dom) && negb (hasChar " " s)
       && match splitFirst "." dom with
          | Some (host, tld) => nonEmpty host && nonEmpty tld
          | None => false
          end)%bool
  | None => false
  end.

Definition isPositiveInt (v : value) : bool :=
  match v with
  | VStr s => match userController.toInt s with
              | Some n => Z.ltb 0 n
              | None => false
              end
  | _ => false
  end.

Definition fieldOf (req : Request) (k : string) : value :=
  match member (body req) k with
  | inr v => v
  | inl _ => VUndefined
  end.

Definition isText (v : value) : bool :=
  match v with
  | VStr s => nonEmpty s
  | _ => false
  end.

Definition isEmailValue (v : value) : bool :=
  match v with
  | VStr s => isEmail s
  | _ => false
  end.

(** One rule: its error when the check fails, nothing otherwise. *)
Definition rule (holds : bool) (field : string) : list FieldError.t :=
  if holds then [] else [FieldError.mk field "Invalid value"].

(** Modelled from the spec: the rule sets of validators/ are not among
    the sources.  Rules are field presence, email shape and the numeric
    range of the path identifier; every rule is evaluated, and each
    failing rule contributes one error, in the order of declaration. *)
#[export] Instance specValidators : Validators := {
  idParamValidator req := rule (isPositiveInt (params_id req)) "id";
  userValidator req :=
    (rule (isText (fieldOf req "name")) "name"
     ++ rule (isEmailValue (fieldOf req "email")) "email"
     ++ rule (isText (fieldOf req "password")) "password")%list;
  userUpdateValidator req :=
    (rule (isPositiveInt (params_id req)) "id"
     ++ rule (isText (fieldOf req "name")) "name"
     ++ rule (isEmailValue (fieldOf req "email")) "email"
     ++ rule (isText (fieldOf req "password")) "password")%list;
  userLoginValidator req :=
    (rule (isEmailValue (fieldOf req "email")) "email"
     ++ rule (isText (fieldOf req "password")) "password")%list
}.

Definition showZ (n : Z) : string := NilZero.string_of_int (Z.to_int n).

Definition showId (v : value) : string :=
  match v with
  | VNum n => showZ n
  | VStr s => s
  | _ => "?"
  end.

Definition showClaims (c : Claims.t) : string :=
  showId (Claims.id c) ++ "," ++ showZ (Claims.iat c) ++ "," ++ showZ (Claims.exp c).

(** The text after the last [$] of [s]. *)
Fixpoint afterLastDollar (s : string) (cur : string) : string :=
  match s with
  | EmptyString => cur
  | String c rest =>
      if Ascii.eqb c "$" then afterLastDollar rest EmptyString
      else afterLastDollar rest (cur ++ String c EmptyString)
  end.

(** Stand-ins of the right types for the native primitives, to evaluate
    the handlers on concrete requests.  No theorem below depends on how
    they compute: each is stated for every instance of [Crypto]. *)
Definition sampleCrypto : Crypto := {|
  hs256 key c := "mac[" ++ key ++ "|" ++ showClaims c ++ "]";
  compact t := showClaims (Token.claims t) ++ "." ++ Token.signature t;
  genSalt rounds n := "$2b$" ++ showZ rounds ++ "$salt" ++ showZ (Z.of_nat n);
  encrypt data salt := salt ++ "$" ++ data;
  compare data hash := String.eqb (afterLastDollar hash EmptyString) data
|}.

Definition alice : User.t :=
  User.mk 1 "Alice" "alice@example.com"
          (@encrypt sampleCrypto "wonderland" (@genSalt sampleCrypto saltRounds 0)).

(** A server with one registered user, a signing secret and a database
    that answers; and the same server with the database gone. *)
Definition world1 : World :=
  mkWorld [alice] true 2 1700000000000 (Some "s3cret") 1 [].

Definition world1_down : World :=
  mkWorld [alice] false 2 1700000000000 (Some "s3cret") 1 [].

(** The same server one hour later. *)
Definition world1_late : World :=
  mkWorld [alice] true 2 1700003600000 (Some "s3cret") 1 [].

(** The token issued to user 1 on [world1], and a token that claims user
    2 under the signature of the former. *)
Definition token1 : Token.t := @issued sampleCrypto "s3cret" world1 (VNum 1).

Definition forged : Token.t :=
  Token.mk (Claims.mk (VNum 2) 1700000000 1700003600) (Token.signature token1).

Definition credentials (addr plain : string) : value :=
  VObj [ ("email", VStr addr); ("password", VStr plain) ].

Definition postLogin (b : value) : Request :=
  mkRequest POST ["login"] b None VUndefined.

Definition getList (t : option Token.t) : Request :=
  mkRequest GET [] (VObj []) t VUndefined.

Definition getById (key : string) : Request :=
  mkRequest GET [key] (VObj []) None VUndefined.

Definition deleteById (key : string) : Request :=
  mkRequest DELETE [key] (VObj []) None VUndefined.

(** [data.user] and [data.token] of a JSON response body. *)
Definition dataField (k : string) (r : Response) : option value :=
  match content r with
  | Json (VObj fs) =>
      match assoc "data" fs with
      | Some (VObj ds) => assoc k ds
      | _ => None
      end
  | _ => None
  end.

Definition isJson (b : Body) : bool :=
  match b with
  | Json _ => true
  | _ => false
  end.


(** The same request carrying another token and another attached
    identity. *)
Definition withCredentials (t : option Token.t) (uid : value) (req : Request)
  : Request :=
  mkRequest (method req) (path req) (body req) t uid.

(** A validator chain that reads nothing but the path and the body. *)
Definition ignoresCredentials (chain : Request -> list FieldError.t) : Prop :=
  forall req t uid, chain (withCredentials t uid req) = chain req.

Definition isStr (v : value) : bool :=
  match v with
  | VStr _ => true
  | _ => false
  end.

(** Is the listing route the one a request is for? *)
Definition forListing (req : Request) : bool :=
  match method req, path req with
  | GET, [] => true
  | _, _ => false
  end.

Definition registration (n addr plain : string) : value :=
  VObj [ ("name", VStr n); ("email", VStr addr); ("password", VStr plain) ].

Definition postCreate (b : value) : Request :=
  mkRequest POST [] b None VUndefined.

Definition putById (key : string) (b : value) : Request :=
  mkRequest PUT [key] b None VUndefined.

(** [w'] holds the same users, next identity and salt count as [w]. *)
Definition sameStore (w w' : World) : Prop :=
  users w' = users w /\ nextId w' = nextId w /\ drawn w' = drawn w.

(** [undefined] or [null]: what [v == null] tests. *)
Definition isNullish (v : value) : bool :=
  match v with
  | VUndefined | VNull => true
  | _ => false
  end.

(** The error [bcrypt.compareSync] throws for a first argument that is
    not a string, the second one being a string. *)
Definition compareArgumentError (v : value) : JsError :=
  if isNullish v then Error "data and hash arguments required"
  else Error "data must be a string or Buffer and hash must be a string".

(** Would the record [u], updated with [data], take the email of another
    stored user? *)
Definition emailClash (data : value) (u : User.t) (us : list User.t) : bool :=
  existsb (fun o => userController.byEmail
                      (VStr (User.email (userController.patch data u))) o
                    && negb (Z.eqb (User.id o) (User.id u)))%bool
          us.

(** The users after the records selected by [key] were replaced by [u']. *)
Definition replaced (key : value) (u' : User.t) (us : list User.t) : list User.t :=
  map (fun o => if userController.byKey key o then u' else o) us.

(** A second registered user, and a server holding both. *)
Definition bob : User.t :=
  User.mk 2 "Bob" "bob@example.com"
          (@encrypt sampleCrypto "builder" (@genSalt sampleCrypto saltRounds 1)).

Definition world2 : World :=
  mkWorld [alice; bob] true 3 1700000000000 (Some "s3cret") 2 [].

(** [world1] with no signing secret in the environment. *)
Definition world1_nosecret : World :=
  mkWorld [alice] true 2 1700000000000 None 1 [].

(* ------------------------------------------------------------------ *)
(** * Properties *)

Ltac run :=
  unfold asyncHandler, bind, lift, ret, throw, ask,
    userController.getUsers, userController.getUser,
    userController.getUserByEmail, userController.deleteUser,
    userController.query;
  cbn [dbUp users logCall fst snd].

Lemma ms_1h : ms "1h" = Some 3600000.
Proof. reflexivity. Qed.

Lemma truthy_toObject (u : User.t) : truthy (toObject u) = true.
Proof. reflexivity. Qed.

Lemma password_of_toObject (u : User.t) :
  member (toObject u) "password" = inr (VStr (User.password u)).
Proof. reflexivity. Qed.

Lemma id_of_toObject (u : User.t) :
  member (toObject u) "id" = inr (VNum (User.id u)).
Proof. reflexivity. Qed.

Lemma find_none_filter {A} (f : A -> bool) (l : list A) :
  find f l = None -> filter f l = [].
Proof.
  induction l as [|a l IH]; simpl; [reflexivity|].
  destruct (f a); [discriminate | exact IH].
Qed.

(** What the shared [catch (err) { next(err) }] does with an exception of
    the try block, by the parameter list of the handler. *)
Lemma catch_with_next (tryBlock : M Response) (w w' : World) (err : JsError) :
  tryBlock w = (inl err, w') ->
  asyncHandler ReqResNext tryBlock w = (Forwarded err, w').
Proof. intros E. unfold asyncHandler. rewrite E. reflexivity. Qed.

Lemma catch_without_next (tryBlock : M Response) (w w' : World) (err : JsError) :
  tryBlock w = (inl err, w') ->
  asyncHandler ReqRes tryBlock w
  = (Unhandled (ReferenceError "next is not defined"), w').
Proof. intros E. unfold asyncHandler. rewrite E. reflexivity. Qed.

Lemma sent_when_returned (ps : Params) (tryBlock : M Response) (w w' : World)
      (r : Response) :
  tryBlock w = (inr r, w') -> asyncHandler ps tryBlock w = (Sent r, w').
Proof. intros E. unfold asyncHandler. rewrite E. reflexivity. Qed.

(** [GET /api/users/abc]: answered 422 on the positive-integer rule, with
    no persistence call made. *)
Example fetch_abc :
  @app sampleCrypto specValidators (getById "abc") world1
  = (Replied (status_json 422
                (errorsBody (VArr [VObj [ ("msg", VStr "Invalid value");
                                          ("path", VStr "id") ]]))),
     world1)
  /\ dbLog world1 = [].
Proof. split; reflexivity. Qed.

Section TokenFacts.
Context `{Crypto}.

Lemma issue_with_secret (key : string) (w : World) (uid : value) :
  JWT_SECRET w = Some key -> key <> EmptyString ->
  issue uid w = (inr (issued key w uid), w).
Proof.
  intros Hs Hk. unfold issue, jwt_sign, bind, ask, ret. rewrite Hs.
  destruct (String.eqb_spec key EmptyString) as [E|_]; [contradiction|].
  rewrite ms_1h. reflexivity.
Qed.

Lemma issue_inversion (w w' : World) (uid : value) (t : Token.t) :
  issue uid w = (inr t, w') ->
  exists key, JWT_SECRET w = Some key /\ key <> EmptyString
              /\ t = issued key w uid /\ w' = w.
Proof.
  unfold issue, jwt_sign, bind, ask, ret, throw.
  destruct (JWT_SECRET w) as [key|]; [|discriminate].
  destruct (String.eqb_spec key EmptyString) as [E|N]; [discriminate|].
  rewrite ms_1h. intros E. inversion E; subst.
  exists key. repeat split; auto.
Qed.

Lemma verify_expired (key : string) (now : Z) (t : Token.t) :
  Claims.exp (Token.claims t) <= now -> verify key now t = Rejected.
Proof.
  intros Hexp. unfold verify.
  destruct (String.eqb _ _); [|reflexivity].
  apply Z.leb_le in Hexp. rewrite Hexp. reflexivity.
Qed.

Lemma verify_tampered (key : string) (now : Z) (t : Token.t) :
  Token.signature t <> hs256 key (Token.claims t) -> verify key now t = Rejected.
Proof.
  intros Hsig. unfold verify.
  destruct (String.eqb_spec (Token.signature t) (hs256 key (Token.claims t)));
    [contradiction | reflexivity].
Qed.

Lemma verify_issued (key : string) (w : World) (uid : value) (now : Z) :
  now < clock w / 1000 + 3600 ->
  verify key now (issued key w uid) = Accepted uid.
Proof.
  intros Hnow. unfold verify, issued. cbn [Token.signature Token.claims Claims.exp Claims.id].
  rewrite String.eqb_refl.
  destruct (Z.leb_spec (clock w / 1000 + 3600) now); [lia | reflexivity].
Qed.
End TokenFacts.

Section LoginFacts.
Context `{Crypto} `{Validators}.

Lemma login_unknown_email (req : Request) (w : World) (addr : value) :
  dbUp w = true ->
  member (body req) "email" = inr addr ->
  find (userController.byEmail addr) (users w) = None ->
  login req w = (Sent (noSuchUser req), logCall (FindByEmail addr) w).
Proof.
  intros Hup Haddr Hfind. unfold login. run.
  rewrite Haddr, Hup, Hfind. reflexivity.
Qed.

Lemma login_wrong_password (req : Request) (w : World) (addr : value)
      (u : User.t) (plain : string) :
  dbUp w = true ->
  member (body req) "email" = inr addr ->
  find (userController.byEmail addr) (users w) = Some u ->
  member (body req) "password" = inr (VStr plain) ->
  compare plain (User.password u) = false ->
  login req w = (Sent wrongPassword, logCall (FindByEmail addr) w).
Proof.
  intros Hup Haddr Hfind Hplain Hcmp. unfold login. run.
  rewrite Haddr, Hup, Hfind. cbn [userController.orNull].
  rewrite truthy_toObject, Hplain, password_of_toObject.
  unfold compareSync, ret. rewrite Hcmp. reflexivity.
Qed.

Lemma login_success (req : Request) (w : World) (addr : value)
      (u : User.t) (plain key : string) :
  dbUp w = true ->
  member (body req) "email" = inr addr ->
  find (userController.byEmail addr) (users w) = Some u ->
  member (body req) "password" = inr (VStr plain) ->
  compare plain (User.password u) = true ->
  JWT_SECRET w = Some key -> key <> EmptyString ->
  login req w
  = (Sent (loggedIn (issued key w (VNum (User.id u))) (toObject u)),
     logCall (FindByEmail addr) w).
Proof.
  intros Hup Haddr Hfind Hplain Hcmp Hsec Hkey. unfold login. run.
  rewrite Haddr, Hup, Hfind. cbn [userController.orNull].
  rewrite truthy_toObject, Hplain, password_of_toObject.
  unfold compareSync, ret. rewrite Hcmp, id_of_toObject.
  rewrite (issue_with_secret key (logCall (FindByEmail addr) w)) by assumption.
  reflexivity.
Qed.

(** Every way the login handler can send a response. *)
Lemma login_sent (req : Request) (w w' : World) (r : Response) :
  login req w = (Sent r, w') ->
  exists addr,
    member (body req) "email" = inr addr /\ dbUp w = true
    /\ w' = logCall (FindByEmail addr) w
    /\ ((find (userController.byEmail addr) (users w) = None /\ r = noSuchUser req)
        \/ exists u plain,
             find (userController.byEmail addr) (users w) = Some u
             /\ member (body req) "password" = inr (VStr plain)
             /\ ((compare plain (User.password u) = false /\ r = wrongPassword)
                 \/ (compare plain (User.password u) = true
                     /\ exists key, JWT_SECRET w = Some key /\ key <> EmptyString
                          /\ r = loggedIn (issued key w (VNum (User.id u))) (toObject u)))).
Proof.
  unfold login. run.
  destruct (member (body req) "email") as [e|addr] eqn:Haddr; [discriminate|].
  destruct (dbUp w) eqn:Hup; [|discriminate].
  destruct (find (userController.byEmail addr) (users w)) as [u|] eqn:Hfind;
    cbn [userController.orNull].
  - rewrite truthy_toObject.
    destruct (member (body req) "password") as [e|plain] eqn:Hplain; [discriminate|].
    rewrite password_of_toObject.
    destruct plain; unfold compareSync, throw, ret; try discriminate.
    destruct (compare s (User.password u)) eqn:Hcmp.
    + rewrite id_of_toObject.
      destruct (issue (VNum (User.id u)) (logCall (FindByEmail addr) w))
        as [[e|t] w1] eqn:Hissue; [discriminate|].
      apply issue_inversion in Hissue.
      destruct Hissue as (key & Hsec & Hkey & Ht & Hw1). subst t w1.
      intros E. inversion E; subst. exists addr. repeat split; auto.
      right. exists u, s. repeat split; auto.
      right. split; auto. exists key. repeat split; auto.
    + intros E. inversion E; subst. exists addr. repeat split; auto.
      right. exists u, s. repeat split; auto.
  - cbn [truthy]. intros E. inversion E; subst.
    exists addr. repeat split; auto.
Qed.

Lemma login_never_unhandled (req : Request) (w : World) (err : JsError) :
  fst (login req w) <> Unhandled err.
Proof.
  unfold login, asyncHandler.
  match goal with |- context [match ?m w with _ => _ end] => destruct (m w) as [[e|r] w'] end;
    cbn; discriminate.
Qed.
End LoginFacts.

Section PassThrough.
Context `{Crypto} `{Validators}.

Lemma listUsers_sent (req : Request) (w w' : World) (r : Response) :
  listUsers req w = (Sent r, w') ->
  exists data, userController.getUsers w = (inr data, w') /\ r = ok data.
Proof.
  unfold listUsers, asyncHandler, bind, ret.
  destruct (userController.getUsers w) as [[e|data] w1]; [discriminate|].
  intros E. inversion E; subst. exists data. split; reflexivity.
Qed.

Lemma fetchUser_sent_200 (req : Request) (w w' : World) (r : Response) :
  fetchUser req w = (Sent r, w') -> status r = 200 ->
  exists data,
    userController.getUser (params_id req) w = (inr data, w') /\ r = ok data.
Proof.
  unfold fetchUser, asyncHandler, bind, ret.
  destruct (isEmpty (validationResult idParamValidator req)).
  - destruct (userController.getUser (params_id req) w) as [[e|data] w1];
      [discriminate|].
    destruct (negb (truthy data)); intros E; inversion E; subst; cbn.
    + discriminate.
    + intros _. exists data. split; reflexivity.
  - intros E. inversion E; subst. cbn. discriminate.
Qed.

Lemma createUser_sent_200 (req : Request) (w w' : World) (r : Response) :
  createUser req w = (Sent r, w') -> status r = 200 ->
  exists plain user data,
    member (body req) "password" = inr (VStr plain)
    /\ setMember (body req) "password"
                 (VStr (encrypt plain (genSalt saltRounds (drawn w)))) = inr user
    /\ userController.createUser user (drawSalt w) = (inr data, w')
    /\ r = ok data.
Proof.
  unfold createUser, asyncHandler, bind, ret, lift.
  destruct (isEmpty (validationResult userValidator req)).
  - destruct (member (body req) "password") as [e|plain] eqn:Hplain; [discriminate|].
    destruct plain; unfold hashSync, throw; try discriminate.
    destruct (setMember (body req) "password" _) as [e|user] eqn:Hset; [discriminate|].
    destruct (userController.createUser user (drawSalt w)) as [[e|data] w1] eqn:Hc;
      [discriminate|].
    intros E _. inversion E; subst.
    exists s, user, data. repeat split; auto.
  - intros E. inversion E; subst. cbn. discriminate.
Qed.
End PassThrough.

(** C1 (as stated, refuted): the claim says that the user object returned
    by a successful login contains no password field.  On the server
    [world1], logging in as its registered user yields a response whose
    [data.user] has a [password] field. *)
Lemma login_user_without_password_counterexample :
  ~ (forall (C : Crypto) (V : Validators) (req : Request) (w w' : World)
            (r : Response) (user : value),
        login req w = (Sent r, w') -> status r = 200 ->
        dataField "user" r = Some user -> hasField "password" user = false).
Proof.
  intros claim.
  assert (K : hasField "password" (toObject alice) = false).
  { eapply (claim sampleCrypto specValidators
                  (postLogin (credentials "alice@example.com" "wonderland")) world1).
    - vm_compute. reflexivity.
    - reflexivity.
    - reflexivity. }
  vm_compute in K. discriminate.
Qed.

(** C1 (amended): the routes send what the controller returns unchanged.
    The user object of a successful login is the stored record that the
    lookup of the submitted email found, and its [password] field holds
    the stored hash, the one the submitted password was compared with; the listing, fetch and
    creation routes answer 200 with exactly the controller's result as
    [data]. *)
Theorem login_response_carries_stored_hash `{Crypto} `{Validators} :
  (forall (req : Request) (w w' : World) (r : Response),
      login req w = (Sent r, w') -> status r = 200 ->
      exists (addr : value) (u : User.t) (plain : string),
        member (body req) "email" = inr addr
        /\ find (userController.byEmail addr) (users w) = Some u
        /\ In u (users w)
        /\ dataField "user" r = Some (toObject u)
        /\ member (toObject u) "password" = inr (VStr (User.password u))
        /\ member (body req) "password" = inr (VStr plain)
        /\ compare plain (User.password u) = true)
  /\ (forall (req : Request) (w w' : World) (r : Response),
         listUsers req w = (Sent r, w') ->
         exists data, userController.getUsers w = (inr data, w') /\ r = ok data)
  /\ (forall (req : Request) (w w' : World) (r : Response),
         fetchUser req w = (Sent r, w') -> status r = 200 ->
         exists data,
           userController.getUser (params_id req) w = (inr data, w') /\ r = ok data)
  /\ (forall (req : Request) (w w' : World) (r : Response),
         createUser req w = (Sent r, w') -> status r = 200 ->
         exists plain user data,
           member (body req) "password" = inr (VStr plain)
           /\ setMember (body req) "password"
                        (VStr (encrypt plain (genSalt saltRounds (drawn w)))) = inr user
           /\ userController.createUser user (drawSalt w) = (inr data, w')
           /\ r = ok data).
Proof.
  split; [|split; [|split]].
  - intros req w w' r Hsent Hstatus.
    apply login_sent in Hsent.
    destruct Hsent as (addr & Haddr & Hup & Hw' & [[Hfind Hr] | (u & plain & Hfind & Hplain & Hcase)]).
    + subst r. cbn in Hstatus. discriminate.
    + destruct Hcase as [[Hcmp Hr] | (Hcmp & key & Hsec & Hkey & Hr)].
      * subst r. cbn in Hstatus. discriminate.
      * subst r. exists addr, u, plain. repeat split; auto.
        apply find_some in Hfind. apply Hfind.
  - apply listUsers_sent.
  - apply fetchUser_sent_200.
  - apply createUser_sent_200.
Qed.

Lemma login_response_carries_stored_hash_witness :
  exists (addr : value) (u : User.t) (plain : string),
    member (body (postLogin (credentials "alice@example.com" "wonderland"))) "email"
    = inr addr
    /\ find (userController.byEmail addr) (users world1) = Some u
    /\ In u (users world1)
    /\ dataField "user"
         (@loggedIn sampleCrypto (@issued sampleCrypto "s3cret" world1 (VNum 1))
                    (toObject alice))
       = Some (toObject u)
    /\ member (toObject u) "password" = inr (VStr (User.password u))
    /\ member (credentials "alice@example.com" "wonderland") "password"
       = inr (VStr plain)
    /\ @compare sampleCrypto plain (User.password u) = true.
Proof.
  apply (proj1 (@login_response_carries_stored_hash sampleCrypto specValidators)
               (postLogin (credentials "alice@example.com" "wonderland"))
               world1 (logCall (FindByEmail (VStr "alice@example.com")) world1)).
  - vm_compute. reflexivity.
  - reflexivity.
Defined.

(** C2 (as stated, refuted): the claim says that every login request is
    answered with 404 or 200 according to the three cases, and with no
    other status.  When the database does not answer ([world1_down]), the
    lookup throws, the handler hands the error to [next], and the
    registered user's correct credentials are answered with 500. *)
Lemma login_only_404_or_200_counterexample :
  ~ (forall (C : Crypto) (V : Validators) (w : World) (addr plain : string),
        exists (r : Response) (w' : World),
          app (postLogin (credentials addr plain)) w = (Replied r, w')
          /\ (find (userController.byEmail (VStr addr)) (users w) = None ->
              status r = 404)
          /\ (forall u, find (userController.byEmail (VStr addr)) (users w) = Some u ->
                        compare plain (User.password u) = false -> status r = 404)
          /\ (forall u, find (userController.byEmail (VStr addr)) (users w) = Some u ->
                        compare plain (User.password u) = true ->
                        status r = 200
                        /\ exists t, dataField "token" r = Some (VStr t))
          /\ (status r = 200 \/ status r = 404)).
Proof.
  intros claim.
  destruct (claim sampleCrypto specValidators world1_down
                  "alice@example.com" "wonderland")
    as (r & w' & Happ & _ & _ & _ & Hstatus).
  vm_compute in Happ. inversion Happ; subst r.
  cbn in Hstatus. destruct Hstatus; discriminate.
Qed.

(** C2 (amended): when the lookup, the comparison and the signing
    complete, login answers 404 if no user record has the given email,
    404 if a record has it but the submitted password does not match its
    hash, and 200 with a token string if both match.  The handler never
    sends a status other than 200 and 404 and never leaves its promise
    rejected; when a step throws it sends nothing and hands the error to
    [next], and the application answers 500. *)
Theorem login_statuses `{Crypto} `{Validators} (req : Request) (w : World) :
  (forall addr,
      dbUp w = true -> member (body req) "email" = inr addr ->
      find (userController.byEmail addr) (users w) = None ->
      exists r, fst (login req w) = Sent r /\ status r = 404)
  /\ (forall addr u plain,
         dbUp w = true -> member (body req) "email" = inr addr ->
         find (userController.byEmail addr) (users w) = Some u ->
         member (body req) "password" = inr (VStr plain) ->
         compare plain (User.password u) = false ->
         exists r, fst (login req w) = Sent r /\ status r = 404)
  /\ (forall addr u plain key,
         dbUp w = true -> member (body req) "email" = inr addr ->
         find (userController.byEmail addr) (users w) = Some u ->
         member (body req) "password" = inr (VStr plain) ->
         compare plain (User.password u) = true ->
         JWT_SECRET w = Some key -> key <> EmptyString ->
         exists r t, fst (login req w) = Sent r /\ status r = 200
                     /\ dataField "token" r = Some (VStr t))
  /\ (forall r w', login req w = (Sent r, w') -> status r = 200 \/ status r = 404)
  /\ (forall err, fst (login req w) <> Unhandled err)
  /\ (forall err w',
         method req = POST -> path req = ["login"] ->
         login req w = (Forwarded err, w') ->
         exists r, app req w = (Replied r, w') /\ status r = 500).
Proof.
  repeat apply conj.
  - intros addr Hup Haddr Hfind.
    rewrite (login_unknown_email req w addr Hup Haddr Hfind).
    eexists. split; reflexivity.
  - intros addr u plain Hup Haddr Hfind Hplain Hcmp.
    rewrite (login_wrong_password req w addr u plain Hup Haddr Hfind Hplain Hcmp).
    eexists. split; reflexivity.
  - intros addr u plain key Hup Haddr Hfind Hplain Hcmp Hsec Hkey.
    rewrite (login_success req w addr u plain key Hup Haddr Hfind Hplain Hcmp Hsec Hkey).
    eexists. eexists. repeat split; reflexivity.
  - intros r w' Hsent. apply login_sent in Hsent.
    destruct Hsent as (addr & _ & _ & _ & [[_ Hr] | (u & plain & _ & _ & Hcase)]).
    + subst r. right. reflexivity.
    + destruct Hcase as [[_ Hr] | (_ & key & _ & _ & Hr)]; subst r.
      * right. reflexivity.
      * left. reflexivity.
  - apply login_never_unhandled.
  - intros err w' Hm Hp Hfwd. unfold app, router. rewrite Hm, Hp, Hfwd.
    eexists. split; reflexivity.
Qed.

Lemma login_statuses_witness :
  (exists r, fst (@login sampleCrypto specValidators
                         (postLogin (credentials "bob@example.com" "builder")) world1)
             = Sent r /\ status r = 404)
  /\ (exists r, fst (@login sampleCrypto specValidators
                            (postLogin (credentials "alice@example.com" "rabbit")) world1)
                = Sent r /\ status r = 404)
  /\ (exists r t, fst (@login sampleCrypto specValidators
                              (postLogin (credentials "alice@example.com" "wonderland")) world1)
                  = Sent r /\ status r = 200
                  /\ dataField "token" r = Some (VStr t))
  /\ (exists r, @app sampleCrypto specValidators
                     (postLogin (credentials "alice@example.com" "wonderland")) world1_down
                = (Replied r, logCall (FindByEmail (VStr "alice@example.com")) world1_down)
                /\ status r = 500).
Proof.
  repeat apply conj.
  - apply (proj1 (@login_statuses sampleCrypto specValidators
                    (postLogin (credentials "bob@example.com" "builder")) world1)
                 (VStr "bob@example.com")); reflexivity.
  - apply (proj1 (proj2 (@login_statuses sampleCrypto specValidators
                    (postLogin (credentials "alice@example.com" "rabbit")) world1))
                 (VStr "alice@example.com") alice "rabbit"); reflexivity.
  - apply (proj1 (proj2 (proj2 (@login_statuses sampleCrypto specValidators
                    (postLogin (credentials "alice@example.com" "wonderland")) world1)))
                 (VStr "alice@example.com") alice "wonderland" "s3cret");
      try reflexivity.
    discriminate.
  - apply (proj2 (proj2 (proj2 (proj2 (proj2
             (@login_statuses sampleCrypto specValidators
                (postLogin (credentials "alice@example.com" "wonderland")) world1_down)))))
                 userController.connectionError); reflexivity.
Defined.

(** C5: for well-formed login input the two 404 answers differ.  An
    unknown email is answered 404 with the validator's error array, which
    is empty since validation passed; a known email with a wrong password
    is answered 404 with the one-message list; the two bodies are
    different. *)
Theorem login_failures_distinguishable `{Crypto} `{Validators}
        (w : World) (reqU reqW : Request) (addrU addrW : value)
        (u : User.t) (plain : string) :
  dbUp w = true ->
  validationResult userLoginValidator reqU = [] ->
  member (body reqU) "email" = inr addrU ->
  find (userController.byEmail addrU) (users w) = None ->
  member (body reqW) "email" = inr addrW ->
  find (userController.byEmail addrW) (users w) = Some u ->
  member (body reqW) "password" = inr (VStr plain) ->
  compare plain (User.password u) = false ->
  exists rU rW,
    fst (login reqU w) = Sent rU /\ fst (login reqW w) = Sent rW
    /\ status rU = 404 /\ status rW = 404
    /\ content rU = Json (VObj [ ("errors", VArr []) ])
    /\ content rW = Json (VObj [ ("errors", VArr [VStr "Invalid email or password"]) ])
    /\ content rU <> content rW.
Proof.
  intros Hup Hvalid HaddrU HfindU HaddrW HfindW Hplain Hcmp.
  rewrite (login_unknown_email reqU w addrU Hup HaddrU HfindU).
  rewrite (login_wrong_password reqW w addrW u plain Hup HaddrW HfindW Hplain Hcmp).
  exists (noSuchUser reqU), wrongPassword.
  unfold noSuchUser. rewrite Hvalid.
  repeat split; try reflexivity.
  cbn. discriminate.
Qed.

Lemma login_failures_distinguishable_witness :
  exists rU rW,
    fst (@login sampleCrypto specValidators
                (postLogin (credentials "bob@example.com" "builder")) world1) = Sent rU
    /\ fst (@login sampleCrypto specValidators
                   (postLogin (credentials "alice@example.com" "rabbit")) world1) = Sent rW
    /\ status rU = 404 /\ status rW = 404
    /\ content rU = Json (VObj [ ("errors", VArr []) ])
    /\ content rW = Json (VObj [ ("errors", VArr [VStr "Invalid email or password"]) ])
    /\ content rU <> content rW.
Proof.
  apply (@login_failures_distinguishable sampleCrypto specValidators world1
           (postLogin (credentials "bob@example.com" "builder"))
           (postLogin (credentials "alice@example.com" "rabbit"))
           (VStr "bob@example.com") (VStr "alice@example.com") alice "rabbit");
    reflexivity.
Defined.

Section ValidationGate.
Context `{Crypto} `{Validators}.

Lemma isEmpty_false (errors : list FieldError.t) :
  errors <> [] -> isEmpty errors = false.
Proof. destruct errors; [contradiction | reflexivity]. Qed.

(** The four other validated routes stop at the gate: a non-empty
    validation result is answered 422 with the error array, and the world,
    its record of persistence calls included, is left as it was. *)
Lemma gated_routes_answer_422 (req : Request) (w : World) :
  (validationResult idParamValidator req <> [] ->
   fetchUser req w
   = (Sent (status_json 422 (errorsBody (array (validationResult idParamValidator req)))), w)
   /\ deleteUser req w
      = (Sent (status_json 422 (errorsBody (array (validationResult idParamValidator req)))), w))
  /\ (validationResult userValidator req <> [] ->
      createUser req w
      = (Sent (status_json 422 (errorsBody (array (validationResult userValidator req)))), w))
  /\ (validationResult userUpdateValidator req <> [] ->
      updateUser req w
      = (Sent (status_json 422 (errorsBody (array (validationResult userUpdateValidator req)))), w)).
Proof.
  repeat apply conj; intros Herr; apply isEmpty_false in Herr;
    unfold fetchUser, deleteUser, createUser, updateUser, asyncHandler, ret;
    rewrite Herr; try split; reflexivity.
Qed.

Lemma login_log (req : Request) (w : World) (addr : value) :
  member (body req) "email" = inr addr ->
  dbLog (snd (login req w)) = (dbLog w ++ [FindByEmail addr])%list.
Proof.
  intros Haddr. unfold login. run. rewrite Haddr.
  destruct (dbUp w); [|reflexivity].
  destruct (find (userController.byEmail addr) (users w)) as [u|];
    cbn [userController.orNull]; [|reflexivity].
  rewrite truthy_toObject.
  destruct (member (body req) "password") as [e|plain]; [reflexivity|].
  rewrite password_of_toObject.
  destruct plain; unfold compareSync, throw, ret; try reflexivity.
  destruct (compare s (User.password u)); [|reflexivity].
  rewrite id_of_toObject.
  unfold issue, jwt_sign, bind, ask, ret, throw. cbn [JWT_SECRET logCall].
  destruct (JWT_SECRET w) as [key|]; [|reflexivity].
  destruct (String.eqb key EmptyString); [reflexivity|].
  rewrite ms_1h. reflexivity.
Qed.
End ValidationGate.

(** C3 (the code departs from the claim on the login route): although the
    validator of the login route reports an error, the handler queries the
    persistence layer with the submitted email, and whatever it sends is
    not a 422. *)
Theorem login_passes_validation_gate `{Crypto} `{Validators}
        (req : Request) (w : World) (addr : value) :
  validationResult userLoginValidator req <> [] ->
  member (body req) "email" = inr addr ->
  dbLog (snd (login req w)) = (dbLog w ++ [FindByEmail addr])%list
  /\ forall r, fst (login req w) = Sent r -> status r <> 422.
Proof.
  intros _ Haddr. split.
  - apply login_log. exact Haddr.
  - intros r Hsent.
    destruct (login req w) as [o w'] eqn:E. cbn in Hsent. subst o.
    apply login_sent in E.
    destruct E as (a & _ & _ & _ & [[_ Hr] | (u & plain & _ & _ & Hcase)]).
    + subst r. cbn. discriminate.
    + destruct Hcase as [[_ Hr] | (_ & key & _ & _ & Hr)]; subst r; cbn; discriminate.
Qed.

Lemma login_passes_validation_gate_witness :
  validationResult (@userLoginValidator specValidators)
                   (postLogin (credentials "not-an-email" "x"))
  = [FieldError.mk "email" "Invalid value"]
  /\ @login sampleCrypto specValidators (postLogin (credentials "not-an-email" "x")) world1
     = (Sent (status_json 404
                (errorsBody (VArr [VObj [ ("msg", VStr "Invalid value");
                                          ("path", VStr "email") ]]))),
        logCall (FindByEmail (VStr "not-an-email")) world1)
  /\ dbLog (snd (@login sampleCrypto specValidators
                        (postLogin (credentials "not-an-email" "x")) world1))
     = [FindByEmail (VStr "not-an-email")]
  /\ forall r, fst (@login sampleCrypto specValidators
                           (postLogin (credentials "not-an-email" "x")) world1) = Sent r ->
               status r <> 422.
Proof.
  split; [reflexivity|]. split; [reflexivity|].
  apply (@login_passes_validation_gate sampleCrypto specValidators
           (postLogin (credentials "not-an-email" "x")) world1
           (VStr "not-an-email")).
  - vm_compute. discriminate.
  - reflexivity.
Defined.

(** C4 (the code departs from the claim on the four routes declared
    without [next]): when the database does not answer, the handlers of
    the listing, fetch, update and delete routes do not hand the error to
    the error handlers; evaluating [next] fails, the promise is rejected
    with a ReferenceError, and the application sends no reply.  The login
    and creation routes, which declare [next], forward the error. *)
Theorem persistence_failure_not_forwarded `{Crypto} `{Validators}
        (req : Request) (w : World) :
  dbUp w = false ->
  fst (listUsers req w) = Unhandled (ReferenceError "next is not defined")
  /\ (validationResult idParamValidator req = [] ->
      fst (fetchUser req w) = Unhandled (ReferenceError "next is not defined")
      /\ fst (deleteUser req w) = Unhandled (ReferenceError "next is not defined"))
  /\ (validationResult userUpdateValidator req = [] ->
      fst (updateUser req w) = Unhandled (ReferenceError "next is not defined"))
  /\ (forall req', method req = GET -> path req = [] ->
                   verifyToken req w = Continue req' ->
                   fst (app req w) = NoReply (ReferenceError "next is not defined"))
  /\ (forall addr, member (body req) "email" = inr addr ->
                   fst (login req w) = Forwarded userController.connectionError).
Proof.
  intros Hdown. repeat apply conj.
  - unfold listUsers. run. rewrite Hdown. reflexivity.
  - intros Hvalid. split.
    + unfold fetchUser. run. rewrite Hvalid. cbn [isEmpty]. rewrite Hdown. reflexivity.
    + unfold deleteUser. run. rewrite Hvalid. cbn [isEmpty]. rewrite Hdown. reflexivity.
  - intros Hvalid. unfold updateUser, userController.updateUser. run.
    rewrite Hvalid. cbn [isEmpty]. rewrite Hdown. reflexivity.
  - intros req' Hm Hp Hgo. unfold app, router. rewrite Hm, Hp, Hgo.
    unfold listUsers. run. rewrite Hdown. reflexivity.
  - intros addr Haddr. unfold login. run. rewrite Haddr, Hdown. reflexivity.
Qed.

Lemma persistence_failure_not_forwarded_witness :
  dbUp world1_down = false
  /\ fst (@app sampleCrypto specValidators
               (getList (Some (@issued sampleCrypto "s3cret" world1 (VNum 1))))
               world1_down)
     = NoReply (ReferenceError "next is not defined")
  /\ fst (@deleteUser specValidators (deleteById "1") world1_down)
     = Unhandled (ReferenceError "next is not defined").
Proof.
  pose proof (@persistence_failure_not_forwarded sampleCrypto specValidators
                (getList (Some (@issued sampleCrypto "s3cret" world1 (VNum 1))))
                world1_down eq_refl) as (_ & _ & _ & Happ & _).
  pose proof (@persistence_failure_not_forwarded sampleCrypto specValidators
                (deleteById "1") world1_down eq_refl) as (_ & Hid & _).
  split; [reflexivity|]. split.
  - eapply Happ; reflexivity.
  - apply Hid. reflexivity.
Defined.

(** C7: verifying a token right after it was issued for a user identity
    succeeds and yields that identity (and it keeps doing so at any time
    before the expiration). *)
Theorem verify_after_issue `{Crypto} (key : string) (w : World) (uid : value) :
  JWT_SECRET w = Some key -> key <> EmptyString ->
  exists t,
    issue uid w = (inr t, w)
    /\ verify key (clock w / 1000) t = Accepted uid
    /\ forall now, now < clock w / 1000 + 3600 -> verify key now t = Accepted uid.
Proof.
  intros Hsec Hkey. exists (issued key w uid).
  split; [apply issue_with_secret; assumption|].
  split; [apply verify_issued; lia|].
  intros now Hnow. apply verify_issued. exact Hnow.
Qed.

Lemma verify_after_issue_witness :
  exists t,
    @issue sampleCrypto (VNum 1) world1 = (inr t, world1)
    /\ @verify sampleCrypto "s3cret" (clock world1 / 1000) t = Accepted (VNum 1)
    /\ forall now, now < clock world1 / 1000 + 3600 ->
                   @verify sampleCrypto "s3cret" now t = Accepted (VNum 1).
Proof.
  apply (@verify_after_issue sampleCrypto "s3cret" world1 (VNum 1)).
  - reflexivity.
  - discriminate.
Defined.

(** C9: issuing for a user identity produces a token whose claim embeds
    exactly that identity, whose expiration is the issuance time (in
    whole seconds) plus 3600 seconds, and whose signature is the one
    computed over the claim with the configured secret.  Issuance returns
    whenever the secret is configured, and every token it returns is of
    that form. *)
Theorem issue_claims `{Crypto} (w : World) (uid : value) :
  (forall key, JWT_SECRET w = Some key -> key <> EmptyString ->
               exists t, issue uid w = (inr t, w))
  /\ (forall t w', issue uid w = (inr t, w') ->
        Claims.id (Token.claims t) = uid
        /\ Claims.iat (Token.claims t) = clock w / 1000
        /\ Claims.exp (Token.claims t) = Claims.iat (Token.claims t) + 3600
        /\ exists key, JWT_SECRET w = Some key
                       /\ Token.signature t = hs256 key (Token.claims t)).
Proof.
  split.
  - intros key Hsec Hkey. exists (issued key w uid).
    apply issue_with_secret; assumption.
  - intros t w' Hissue. apply issue_inversion in Hissue.
    destruct Hissue as (key & Hsec & _ & Ht & _). subst t.
    repeat split. exists key. split; [exact Hsec | reflexivity].
Qed.

Lemma issue_claims_witness :
  (exists t, @issue sampleCrypto (VNum 1) world1 = (inr t, world1))
  /\ Claims.id (Token.claims (@issued sampleCrypto "s3cret" world1 (VNum 1))) = VNum 1
  /\ Claims.iat (Token.claims (@issued sampleCrypto "s3cret" world1 (VNum 1)))
     = clock world1 / 1000
  /\ Claims.exp (Token.claims (@issued sampleCrypto "s3cret" world1 (VNum 1)))
     = Claims.iat (Token.claims (@issued sampleCrypto "s3cret" world1 (VNum 1))) + 3600
  /\ exists key, JWT_SECRET world1 = Some key
                 /\ Token.signature (@issued sampleCrypto "s3cret" world1 (VNum 1))
                    = @hs256 sampleCrypto key
                             (Token.claims (@issued sampleCrypto "s3cret" world1 (VNum 1))).
Proof.
  destruct (@issue_claims sampleCrypto world1 (VNum 1)) as [Hreturns Hform].
  split.
  - apply (Hreturns "s3cret"); [reflexivity | discriminate].
  - apply (Hform _ world1). reflexivity.
Defined.

Section TokenGate.
Context `{Crypto} `{Validators}.

Lemma list_without_token (req : Request) (w : World) :
  method req = GET -> path req = [] -> authorization req = None ->
  app req w = (Replied unauthorized, w).
Proof.
  intros Hm Hp Hauth. unfold app, router, verifyToken.
  rewrite Hm, Hp, Hauth. reflexivity.
Qed.

Lemma list_with_rejected_token (req : Request) (w : World) (t : Token.t) :
  method req = GET -> path req = [] -> authorization req = Some t ->
  (forall key, JWT_SECRET w = Some key -> verify key (clock w / 1000) t = Rejected) ->
  app req w = (Replied unauthorized, w).
Proof.
  intros Hm Hp Hauth Hrej. unfold app, router, verifyToken.
  rewrite Hm, Hp, Hauth.
  destruct (JWT_SECRET w) as [key|]; [|reflexivity].
  rewrite (Hrej key eq_refl). reflexivity.
Qed.

Lemma list_with_accepted_token (req : Request) (w : World) (t : Token.t)
      (key : string) (uid : value) :
  method req = GET -> path req = [] -> authorization req = Some t ->
  JWT_SECRET w = Some key -> verify key (clock w / 1000) t = Accepted uid ->
  dbUp w = true ->
  app req w = (Replied (ok (VArr (map toObject (users w)))), logCall FindAll w).
Proof.
  intros Hm Hp Hauth Hsec Hacc Hup. unfold app, router, verifyToken.
  rewrite Hm, Hp, Hauth, Hsec, Hacc.
  unfold listUsers. run. rewrite Hup. reflexivity.
Qed.
End TokenGate.

(** C8: [verify] rejects every token whose expiration has passed and
    every token whose signature is not the one recomputed with the secret;
    the listing route answers 401 without a token, with an expired token
    and with a tampered token, and answers 200 to a token issued under the
    server's secret and not yet expired (the user query succeeding). *)
Theorem token_gate `{Crypto} `{Validators} :
  (forall key now t, Claims.exp (Token.claims t) <= now -> verify key now t = Rejected)
  /\ (forall key now t, Token.signature t <> hs256 key (Token.claims t) ->
                        verify key now t = Rejected)
  /\ (forall req w,
         method req = GET -> path req = [] -> authorization req = None ->
         exists r, app req w = (Replied r, w) /\ status r = 401)
  /\ (forall req w t,
         method req = GET -> path req = [] -> authorization req = Some t ->
         Claims.exp (Token.claims t) <= clock w / 1000 ->
         exists r, app req w = (Replied r, w) /\ status r = 401)
  /\ (forall req w t key,
         method req = GET -> path req = [] -> authorization req = Some t ->
         JWT_SECRET w = Some key ->
         Token.signature t <> hs256 key (Token.claims t) ->
         exists r, app req w = (Replied r, w) /\ status r = 401)
  /\ (forall req w0 w t key uid,
         method req = GET -> path req = [] ->
         JWT_SECRET w0 = Some key -> key <> EmptyString ->
         issue uid w0 = (inr t, w0) ->
         authorization req = Some t ->
         JWT_SECRET w = Some key ->
         clock w / 1000 < clock w0 / 1000 + 3600 ->
         dbUp w = true ->
         exists r w', app req w = (Replied r, w') /\ status r = 200).
Proof.
  repeat apply conj.
  - intros key now t. apply verify_expired.
  - intros key now t. apply verify_tampered.
  - intros req w Hm Hp Hauth. exists unauthorized.
    split; [apply list_without_token; assumption | reflexivity].
  - intros req w t Hm Hp Hauth Hexp. exists unauthorized.
    split; [|reflexivity].
    apply (list_with_rejected_token req w t); try assumption.
    intros key _. apply verify_expired. exact Hexp.
  - intros req w t key Hm Hp Hauth Hsec Hsig. exists unauthorized.
    split; [|reflexivity].
    apply (list_with_rejected_token req w t); try assumption.
    intros key' Hsec'. rewrite Hsec in Hsec'. inversion Hsec'; subst key'.
    apply verify_tampered. exact Hsig.
  - intros req w0 w t key uid Hm Hp Hsec0 Hkey Hissue Hauth Hsec Hfresh Hup.
    rewrite (issue_with_secret key w0 uid Hsec0 Hkey) in Hissue.
    inversion Hissue; subst t.
    eexists. eexists. split.
    + apply (list_with_accepted_token req w (issued key w0 uid) key uid);
        try assumption.
      apply verify_issued. exact Hfresh.
    + reflexivity.
Qed.

Lemma token_gate_witness :
  @verify sampleCrypto "s3cret" (clock world1_late / 1000) token1 = Rejected
  /\ @verify sampleCrypto "s3cret" (clock world1 / 1000) forged = Rejected
  /\ (exists r, @app sampleCrypto specValidators (getList None) world1
                = (Replied r, world1) /\ status r = 401)
  /\ (exists r, @app sampleCrypto specValidators (getList (Some token1)) world1_late
                = (Replied r, world1_late) /\ status r = 401)
  /\ (exists r, @app sampleCrypto specValidators (getList (Some forged)) world1
                = (Replied r, world1) /\ status r = 401)
  /\ (exists r w', @app sampleCrypto specValidators (getList (Some token1)) world1
                   = (Replied r, w') /\ status r = 200).
Proof.
  destruct (@token_gate sampleCrypto specValidators)
    as (Hexpired & Htampered & Hnone & Hlate & Hforged & Hfresh).
  repeat apply conj.
  - apply Hexpired. vm_compute. discriminate.
  - apply Htampered. vm_compute. discriminate.
  - apply Hnone; reflexivity.
  - apply (Hlate _ _ token1); reflexivity.
  - apply (Hforged _ _ forged "s3cret"); try reflexivity. vm_compute. discriminate.
  - apply (Hfresh _ world1 world1 token1 "s3cret" (VNum 1)); try reflexivity.
    discriminate.
Defined.

Section NotFoundShapes.
Context `{Crypto} `{Validators}.

Lemma fetchUser_not_found (req : Request) (w : World) :
  validationResult idParamValidator req = [] -> dbUp w = true ->
  find (userController.byKey (params_id req)) (users w) = None ->
  fetchUser req w = (Sent (sendStatus 404), logCall (FindByPk (params_id req)) w).
Proof.
  intros Hvalid Hup Hfind. unfold fetchUser. run.
  rewrite Hvalid. cbn [isEmpty]. rewrite Hup, Hfind. reflexivity.
Qed.

Lemma deleteUser_not_found (req : Request) (w : World) :
  validationResult idParamValidator req = [] -> dbUp w = true ->
  find (userController.byKey (params_id req)) (users w) = None ->
  fst (deleteUser req w) = Sent (sendStatus 404).
Proof.
  intros Hvalid Hup Hfind. unfold deleteUser. run.
  rewrite Hvalid. cbn [isEmpty]. rewrite Hup.
  rewrite (find_none_filter _ _ Hfind). reflexivity.
Qed.

Lemma login_404_is_json (req : Request) (w w' : World) (r : Response) :
  login req w = (Sent r, w') -> status r = 404 ->
  exists v, content r = Json v /\ hasField "errors" v = true.
Proof.
  intros Hsent Hstatus. apply login_sent in Hsent.
  destruct Hsent as (addr & _ & _ & _ & [[_ Hr] | (u & plain & _ & _ & Hcase)]).
  - subst r. eexists. split; reflexivity.
  - destruct Hcase as [[_ Hr] | (_ & key & _ & _ & Hr)]; subst r.
    + eexists. split; reflexivity.
    + cbn in Hstatus. discriminate.
Qed.
End NotFoundShapes.

(** C10: when the id passes validation and no record matches, the fetch
    and delete routes answer 404 with the bare status (its reason phrase
    as text, no JSON body), whereas every 404 sent by the login route has
    a JSON body with an [errors] field. *)
Theorem not_found_shapes `{Crypto} `{Validators} (req : Request) (w : World) :
  validationResult idParamValidator req = [] -> dbUp w = true ->
  find (userController.byKey (params_id req)) (users w) = None ->
  fst (fetchUser req w) = Sent (mkResponse 404 (Text "Not Found"))
  /\ fst (deleteUser req w) = Sent (mkResponse 404 (Text "Not Found"))
  /\ isJson (Text "Not Found") = false
  /\ forall lreq lw lw' r,
       login lreq lw = (Sent r, lw') -> status r = 404 ->
       exists v, content r = Json v /\ hasField "errors" v = true.
Proof.
  intros Hvalid Hup Hfind. repeat apply conj.
  - rewrite (fetchUser_not_found req w Hvalid Hup Hfind). reflexivity.
  - rewrite (deleteUser_not_found req w Hvalid Hup Hfind). reflexivity.
  - reflexivity.
  - apply login_404_is_json.
Qed.

Lemma not_found_shapes_witness :
  fst (@fetchUser specValidators (getById "7") world1)
  = Sent (mkResponse 404 (Text "Not Found"))
  /\ fst (@deleteUser specValidators (deleteById "7") world1)
     = Sent (mkResponse 404 (Text "Not Found"))
  /\ isJson (Text "Not Found") = false
  /\ exists v, content (@noSuchUser specValidators
                          (postLogin (credentials "bob@example.com" "builder")))
               = Json v /\ hasField "errors" v = true.
Proof.
  pose proof (@not_found_shapes sampleCrypto specValidators (getById "7") world1
                eq_refl eq_refl eq_refl) as (Hfetch & _ & Htext & Hlogin).
  pose proof (@not_found_shapes sampleCrypto specValidators (deleteById "7") world1
                eq_refl eq_refl eq_refl) as (_ & Hdelete & _ & _).
  repeat apply conj; try assumption.
  apply (Hlogin (postLogin (credentials "bob@example.com" "builder")) world1
                (logCall (FindByEmail (VStr "bob@example.com")) world1)).
  - vm_compute. reflexivity.
  - reflexivity.
Defined.

(* ------------------------------------------------------------------ *)
(** * Further properties of the routes *)

Lemma assoc_assocSet_same (k : string) (v : value) (fs : list (string * value)) :
  assoc k (assocSet k v fs) = Some v.
Proof.
  induction fs as [|[k' v'] rest IH]; cbn.
  - rewrite String.eqb_refl. reflexivity.
  - destruct (String.eqb k k') eqn:E; cbn; rewrite E; [reflexivity | exact IH].
Qed.

Lemma assoc_assocSet_other (k k' : string) (v : value) (fs : list (string * value)) :
  k' <> k -> assoc k' (assocSet k v fs) = assoc k' fs.
Proof.
  intros Hne. induction fs as [|[k0 v0] rest IH]; cbn.
  - destruct (String.eqb_spec k' k); [contradiction | reflexivity].
  - destruct (String.eqb_spec k k0) as [E|N]; cbn.
    + subst k0. destruct (String.eqb_spec k' k); [contradiction | reflexivity].
    + destruct (String.eqb k' k0); [reflexivity | exact IH].
Qed.

Lemma member_string_object (o : value) (k s : string) :
  member o k = inr (VStr s) -> exists fs, o = VObj fs.
Proof.
  destruct o; cbn; intros E; try discriminate.
  eexists. reflexivity.
Qed.

Lemma member_setMember_same (fs : list (string * value)) (k : string) (v : value) :
  exists o, setMember (VObj fs) k v = inr o /\ member o k = inr v.
Proof.
  eexists. split; [reflexivity|]. cbn. rewrite assoc_assocSet_same. reflexivity.
Qed.

Lemma controller_createUser_effects (data : value) (w : World) :
  dbLog (snd (userController.createUser data w)) = (dbLog w ++ [Create data])%list
  /\ drawn (snd (userController.createUser data w)) = drawn w.
Proof.
  unfold userController.createUser, userController.query. cbn [dbUp logCall].
  destruct (dbUp w); [|split; reflexivity].
  repeat match goal with
         | |- context [match ?x with _ => _ end] => destruct x
         end; split; reflexivity.
Qed.

Lemma controller_updateUser_effects (key data : value) (w : World) :
  dbLog (snd (userController.updateUser key data w))
  = (dbLog w ++ [Update key data])%list
  /\ drawn (snd (userController.updateUser key data w)) = drawn w.
Proof.
  unfold userController.updateUser, userController.query. cbn [dbUp logCall users].
  destruct (dbUp w); [|split; reflexivity].
  destruct (find (userController.byKey key) (users w)); [|split; reflexivity].
  destruct (existsb _ (users w)); split; reflexivity.
Qed.

(** X1: the creation route hashes before it persists.  On validated input
    whose password is a string, the one persistence call the route makes
    is the creation of the submitted object with its [password] replaced
    by the bcrypt string of the plaintext under a salt drawn for
    [saltRounds] rounds; every other property reaches the controller as
    submitted, and exactly one salt is drawn. *)
Theorem create_hashes_before_persisting `{Crypto} `{Validators}
        (req : Request) (w : World) (plain : string) :
  validationResult userValidator req = [] ->
  member (body req) "password" = inr (VStr plain) ->
  exists user,
    dbLog (snd (createUser req w)) = (dbLog w ++ [Create user])%list
    /\ member user "password"
       = inr (VStr (encrypt plain (genSalt saltRounds (drawn w))))
    /\ (forall k, k <> "password" -> member user k = member (body req) k)
    /\ drawn (snd (createUser req w)) = S (drawn w).
Proof.
  intros Hvalid Hplain.
  destruct (member_string_object _ _ _ Hplain) as [fs Hbody].
  exists (VObj (assocSet "password"
                         (VStr (encrypt plain (genSalt saltRounds (drawn w)))) fs)).
  unfold createUser, asyncHandler, bind, lift, ret.
  rewrite Hvalid. cbn [isEmpty]. rewrite Hplain. unfold hashSync.
  rewrite Hbody. cbn [setMember].
  match goal with
  | |- context [userController.createUser ?d ?w1] =>
      pose proof (controller_createUser_effects d w1) as [Hlog Hdrawn];
      destruct (userController.createUser d w1) as [[e|data] w2]
  end; cbn [snd fst] in *.
  - repeat split; try assumption.
    + cbn. rewrite assoc_assocSet_same. reflexivity.
    + intros k Hk. cbn. rewrite (assoc_assocSet_other _ _ _ _ Hk). reflexivity.
  - repeat split; try assumption.
    + cbn. rewrite assoc_assocSet_same. reflexivity.
    + intros k Hk. cbn. rewrite (assoc_assocSet_other _ _ _ _ Hk). reflexivity.
Qed.

Lemma create_hashes_before_persisting_witness :
  exists user,
    dbLog (snd (@createUser sampleCrypto specValidators
                  (postCreate (registration "Bob" "bob@example.com" "builder")) world1))
    = (dbLog world1 ++ [Create user])%list
    /\ member user "password"
       = inr (VStr (@encrypt sampleCrypto "builder"
                             (@genSalt sampleCrypto saltRounds (drawn world1))))
    /\ (forall k, k <> "password" ->
                  member user k
                  = member (body (postCreate (registration "Bob" "bob@example.com" "builder"))) k)
    /\ drawn (snd (@createUser sampleCrypto specValidators
                     (postCreate (registration "Bob" "bob@example.com" "builder")) world1))
       = S (drawn world1).
Proof.
  apply (@create_hashes_before_persisting sampleCrypto specValidators
           (postCreate (registration "Bob" "bob@example.com" "builder")) world1 "builder");
    reflexivity.
Defined.

(** X2: the update route does not hash.  It never draws a salt, and on
    validated input its one persistence call is the update with the
    identifier of the path and the request body exactly as received, a
    submitted password included; on rejected input it makes no call. *)
Theorem update_passes_body_unhashed `{Validators} (req : Request) (w : World) :
  drawn (snd (updateUser req w)) = drawn w
  /\ (validationResult userUpdateValidator req = [] ->
      dbLog (snd (updateUser req w))
      = (dbLog w ++ [Update (params_id req) (body req)])%list)
  /\ (validationResult userUpdateValidator req <> [] ->
      dbLog (snd (updateUser req w)) = dbLog w).
Proof.
  unfold updateUser, asyncHandler, bind, lift, ret.
  destruct (validationResult userUpdateValidator req) as [|e es] eqn:Hvalid;
    cbn [isEmpty].
  - pose proof (controller_updateUser_effects (params_id req) (body req) w)
      as [Hlog Hdrawn].
    destruct (userController.updateUser (params_id req) (body req) w)
      as [[e|data] w1]; cbn [snd] in *.
    + split; [assumption|]. split; [intros _; assumption|].
      intros N. contradiction N. reflexivity.
    + destruct (index0 data) as [e|first]; [|destruct (strictEqZero first)];
        cbn [snd];
        (split; [assumption|]; split; [intros _; assumption|];
         intros N; contradiction N; reflexivity).
  - cbn [snd]. split; [reflexivity|]. split; [intros N; discriminate|].
    intros _. reflexivity.
Qed.

Lemma update_passes_body_unhashed_witness :
  drawn (snd (@updateUser specValidators
                (putById "1" (registration "Alice" "alice@example.com" "rabbit")) world1))
  = drawn world1
  /\ dbLog (snd (@updateUser specValidators
                   (putById "1" (registration "Alice" "alice@example.com" "rabbit")) world1))
     = [Update (VStr "1") (registration "Alice" "alice@example.com" "rabbit")]
  /\ dbLog (snd (@updateUser specValidators (putById "x" (VObj [])) world1)) = [].
Proof.
  pose proof (@update_passes_body_unhashed specValidators
                (putById "1" (registration "Alice" "alice@example.com" "rabbit")) world1)
    as (Hdrawn & Hlog & _).
  pose proof (@update_passes_body_unhashed specValidators
                (putById "x" (VObj [])) world1) as (_ & _ & Hnone).
  split; [exact Hdrawn|]. split.
  - apply Hlog. reflexivity.
  - apply Hnone. vm_compute. discriminate.
Defined.

(** X3: the update route answers by the number of rows affected.  On
    validated input with the database answering: an identifier that
    matches no record is answered 404 with the bare status and leaves the
    users as they were; an identifier that matches a record whose update
    takes no other user's email is answered 200 with the one-element
    count array [[1]] as data (not the record), the record being replaced
    by its update; and when the update would take another user's email
    the controller throws, the users stay as they were, and the promise
    is left rejected because the route does not declare [next]. *)
Theorem update_answers_by_count `{Validators} (req : Request) (w : World) :
  validationResult userUpdateValidator req = [] -> dbUp w = true ->
  let w' := logCall (Update (params_id req) (body req)) w in
  (find (userController.byKey (params_id req)) (users w) = None ->
   updateUser req w = (Sent (mkResponse 404 (Text "Not Found")), w'))
  /\ (forall u, find (userController.byKey (params_id req)) (users w) = Some u ->
                emailClash (body req) u (users w) = false ->
                updateUser req w
                = (Sent (ok (VArr [VNum 1])),
                   setUsers (replaced (params_id req)
                                      (userController.patch (body req) u) (users w))
                            w'))
  /\ (forall u, find (userController.byKey (params_id req)) (users w) = Some u ->
                emailClash (body req) u (users w) = true ->
                updateUser req w
                = (Unhandled (ReferenceError "next is not defined"), w')).
Proof.
  intros Hvalid Hup w'. unfold w', updateUser, userController.updateUser. run.
  rewrite Hvalid. cbn [isEmpty]. rewrite Hup. repeat apply conj.
  - intros Hfind. rewrite Hfind. reflexivity.
  - intros u Hfind Hclash. rewrite Hfind.
    unfold emailClash in Hclash. rewrite Hclash. reflexivity.
  - intros u Hfind Hclash. rewrite Hfind.
    unfold emailClash in Hclash. rewrite Hclash. reflexivity.
Qed.

Lemma update_answers_by_count_witness :
  @updateUser specValidators
              (putById "7" (registration "Carol" "carol@example.com" "hatter")) world2
  = (Sent (mkResponse 404 (Text "Not Found")),
     logCall (Update (VStr "7") (registration "Carol" "carol@example.com" "hatter")) world2)
  /\ @updateUser specValidators
                 (putById "2" (registration "Robert" "bob@example.com" "builder")) world2
     = (Sent (ok (VArr [VNum 1])),
        setUsers [alice; User.mk 2 "Robert" "bob@example.com" "builder"]
                 (logCall (Update (VStr "2")
                                  (registration "Robert" "bob@example.com" "builder"))
                          world2))
  /\ @updateUser specValidators
                 (putById "2" (registration "Bob" "alice@example.com" "builder")) world2
     = (Unhandled (ReferenceError "next is not defined"),
        logCall (Update (VStr "2") (registration "Bob" "alice@example.com" "builder"))
                world2).
Proof.
  split; [|split].
  - apply (proj1 (@update_answers_by_count specValidators
                    (putById "7" (registration "Carol" "carol@example.com" "hatter"))
                    world2 eq_refl eq_refl)).
    reflexivity.
  - apply (proj1 (proj2 (@update_answers_by_count specValidators
                    (putById "2" (registration "Robert" "bob@example.com" "builder"))
                    world2 eq_refl eq_refl)) bob); reflexivity.
  - apply (proj2 (proj2 (@update_answers_by_count specValidators
                    (putById "2" (registration "Bob" "alice@example.com" "builder"))
                    world2 eq_refl eq_refl)) bob); reflexivity.
Defined.

(** X4: only the listing route looks at the token.  When the validator
    chains read nothing but the path and the body, every request for a
    route other than the listing is routed and answered the same, with
    the same effect on the world, whatever token it carries or lacks. *)
Theorem only_listing_checks_token `{Crypto} `{Validators}
        (req : Request) (w : World) (t : option Token.t) (uid : value) :
  ignoresCredentials idParamValidator ->
  ignoresCredentials userValidator ->
  ignoresCredentials userUpdateValidator ->
  ignoresCredentials userLoginValidator ->
  forListing req = false ->
  router (withCredentials t uid req) w = router req w.
Proof.
  intros Hid Hcreate Hupdate Hlogin Hroute.
  specialize (Hid req t uid). specialize (Hcreate req t uid).
  specialize (Hupdate req t uid). specialize (Hlogin req t uid).
  unfold router, forListing in *.
  unfold fetchUser, createUser, login, updateUser, deleteUser, validationResult,
    params_id.
  rewrite Hid, Hcreate, Hupdate, Hlogin.
  cbn [withCredentials method path body].
  destruct (method req); destruct (path req) as [|s [|s' l]];
    try reflexivity; discriminate.
Qed.

Lemma only_listing_checks_token_witness :
  @router sampleCrypto specValidators
          (withCredentials (Some forged) (VNum 9) (deleteById "1")) world1
  = @router sampleCrypto specValidators (deleteById "1") world1.
Proof.
  apply (@only_listing_checks_token sampleCrypto specValidators
           (deleteById "1") world1 (Some forged) (VNum 9));
    try (intros r t u; reflexivity).
  reflexivity.
Defined.


(** X8: 422 is the answer to rejected input and to nothing else.  On the
    fetch, delete, creation and update routes a non-empty validation
    result is answered 422 with the error array in its order and the
    world untouched, and an empty one is never answered 422. *)
Theorem unprocessable_exactly_on_errors `{Crypto} `{Validators}
        (req : Request) (w : World) :
  (validationResult idParamValidator req <> [] ->
   fetchUser req w
   = (Sent (status_json 422 (errorsBody (array (validationResult idParamValidator req)))), w)
   /\ deleteUser req w
      = (Sent (status_json 422 (errorsBody (array (validationResult idParamValidator req)))), w))
  /\ (validationResult userValidator req <> [] ->
      createUser req w
      = (Sent (status_json 422 (errorsBody (array (validationResult userValidator req)))), w))
  /\ (validationResult userUpdateValidator req <> [] ->
      updateUser req w
      = (Sent (status_json 422 (errorsBody (array (validationResult userUpdateValidator req)))), w))
  /\ (validationResult idParamValidator req = [] ->
      forall r, (fst (fetchUser req w) = Sent r \/ fst (deleteUser req w) = Sent r) ->
                status r <> 422)
  /\ (validationResult userValidator req = [] ->
      forall r, fst (createUser req w) = Sent r -> status r <> 422)
  /\ (validationResult userUpdateValidator req = [] ->
      forall r, fst (updateUser req w) = Sent r -> status r <> 422).
Proof.
  destruct (gated_routes_answer_422 req w) as (Hid & Hcreate & Hupdate).
  split; [exact Hid|]. split; [exact Hcreate|]. split; [exact Hupdate|].
  repeat apply conj.
  - intros Hvalid r [Hsent | Hsent]; revert Hsent.
    + unfold fetchUser, asyncHandler, bind, ret. rewrite Hvalid. cbn [isEmpty].
      destruct (userController.getUser _ w) as [[e|data] w1]; [discriminate|].
      destruct (negb (truthy data)); cbn; intros E; inversion E; subst;
        cbn; discriminate.
    + unfold deleteUser, asyncHandler, bind, ret. rewrite Hvalid. cbn [isEmpty].
      destruct (userController.deleteUser _ w) as [[e|data] w1]; [discriminate|].
      destruct (negb (truthy data)); cbn; intros E; inversion E; subst;
        cbn; discriminate.
  - intros Hvalid r.
    unfold createUser, asyncHandler, bind, ret, lift. rewrite Hvalid. cbn [isEmpty].
    destruct (member (body req) "password") as [e|plain]; [discriminate|].
    destruct (hashSync plain saltRounds w) as [[e|hashed] w1]; [discriminate|].
    destruct (setMember (body req) "password" (VStr hashed)) as [e|user];
      [discriminate|].
    destruct (userController.createUser user w1) as [[e|data] w2]; cbn;
      [discriminate|].
    intros E; inversion E; subst; cbn; discriminate.
  - intros Hvalid r.
    unfold updateUser, asyncHandler, bind, ret, lift. rewrite Hvalid. cbn [isEmpty].
    destruct (userController.updateUser _ _ w) as [[e|data] w1]; [discriminate|].
    destruct (index0 data) as [e|first]; [discriminate|].
    destruct (strictEqZero first); cbn; intros E; inversion E; subst;
      cbn; discriminate.
Qed.

Lemma unprocessable_exactly_on_errors_witness :
  @fetchUser specValidators (getById "abc") world1
  = (Sent (status_json 422
             (errorsBody (array (validationResult (@idParamValidator specValidators)
                                                  (getById "abc"))))), world1)
  /\ forall r, fst (@createUser sampleCrypto specValidators
                      (postCreate (registration "Bob" "bob@example.com" "builder")) world1)
               = Sent r -> status r <> 422.
Proof.
  split.
  - apply (proj1 (@unprocessable_exactly_on_errors sampleCrypto specValidators
                    (getById "abc") world1)).
    vm_compute. discriminate.
  - apply (proj1 (proj2 (proj2 (proj2 (proj2
             (@unprocessable_exactly_on_errors sampleCrypto specValidators
                (postCreate (registration "Bob" "bob@example.com" "builder")) world1)))))).
    reflexivity.
Defined.

Lemma member_assocSet_same (k : string) (v : value) (fs : list (string * value)) :
  member (VObj (assocSet k v fs)) k = inr v.
Proof. cbn. rewrite assoc_assocSet_same. reflexivity. Qed.

Lemma member_assocSet_other (k k' : string) (v : value) (fs : list (string * value)) :
  k' <> k -> member (VObj (assocSet k v fs)) k' = member (VObj fs) k'.
Proof. intros Hne. cbn. rewrite (assoc_assocSet_other _ _ _ _ Hne). reflexivity. Qed.

Lemma find_app_new {A} (f : A -> bool) (l : list A) (a : A) :
  existsb f l = false -> f a = true -> find f (l ++ [a])%list = Some a.
Proof.
  intros Hnone Ha. induction l as [|b l IH]; cbn in *.
  - rewrite Ha. reflexivity.
  - apply Bool.orb_false_iff in Hnone. destruct Hnone as [Hb Hl].
    rewrite Hb. apply IH. exact Hl.
Qed.

(** X5: the token of a successful login opens the listing.  When login
    succeeds, the token string of its response is the compact form of a
    token issued for the id of the user it returns, and a listing request
    carrying that token right afterwards is answered 200 with every
    stored user as data. *)
Theorem login_token_opens_listing `{Crypto} `{Validators}
        (req : Request) (w : World) (addr : value) (u : User.t)
        (plain key : string) :
  dbUp w = true ->
  member (body req) "email" = inr addr ->
  find (userController.byEmail addr) (users w) = Some u ->
  member (body req) "password" = inr (VStr plain) ->
  compare plain (User.password u) = true ->
  JWT_SECRET w = Some key -> key <> EmptyString ->
  let t := issued key w (VNum (User.id u)) in
  let w' := logCall (FindByEmail addr) w in
  login req w = (Sent (loggedIn t (toObject u)), w')
  /\ dataField "token" (loggedIn t (toObject u)) = Some (VStr (compact t))
  /\ Claims.id (Token.claims t) = VNum (User.id u)
  /\ forall lreq,
       method lreq = GET -> path lreq = [] -> authorization lreq = Some t ->
       app lreq w'
       = (Replied (ok (VArr (map toObject (users w)))), logCall FindAll w').
Proof.
  intros Hup Haddr Hfind Hplain Hcmp Hsec Hkey t w'.
  split; [apply (login_success req w addr u plain key); assumption|].
  split; [reflexivity|]. split; [reflexivity|].
  intros lreq Hm Hp Hauth.
  apply (list_with_accepted_token lreq w' t key (VNum (User.id u)));
    try assumption.
  apply verify_issued. unfold w'. cbn [clock logCall]. lia.
Qed.

Lemma login_token_opens_listing_witness :
  @login sampleCrypto specValidators
         (postLogin (credentials "alice@example.com" "wonderland")) world1
  = (Sent (@loggedIn sampleCrypto token1 (toObject alice)),
     logCall (FindByEmail (VStr "alice@example.com")) world1)
  /\ @app sampleCrypto specValidators (getList (Some token1))
          (logCall (FindByEmail (VStr "alice@example.com")) world1)
     = (Replied (ok (VArr (map toObject (users world1)))),
        logCall FindAll (logCall (FindByEmail (VStr "alice@example.com")) world1)).
Proof.
  assert (Hkey : "s3cret" <> EmptyString) by discriminate.
  pose proof (@login_token_opens_listing sampleCrypto specValidators
                (postLogin (credentials "alice@example.com" "wonderland")) world1
                (VStr "alice@example.com") alice "wonderland" "s3cret"
                eq_refl eq_refl eq_refl eq_refl eq_refl eq_refl Hkey)
    as (Hlogin & _ & _ & Hlist).
  split; [exact Hlogin|].
  apply Hlist; reflexivity.
Defined.

(** X6: a registered user can log in.  After the creation route has
    answered 200 to a validated registration whose email was free, the
    store holds the new record with the hashed password, and a login with
    the same email and password is answered 200 with that record,
    provided the comparison accepts the plaintext against the hash that
    was made of it and a signing secret is configured. *)
Theorem register_then_login `{Crypto} `{Validators}
        (req : Request) (w : World) (n e p key : string) :
  validationResult userValidator req = [] ->
  member (body req) "name" = inr (VStr n) ->
  member (body req) "email" = inr (VStr e) ->
  member (body req) "password" = inr (VStr p) ->
  dbUp w = true ->
  existsb (userController.byEmail (VStr e)) (users w) = false ->
  compare p (encrypt p (genSalt saltRounds (drawn w))) = true ->
  JWT_SECRET w = Some key -> key <> EmptyString ->
  let u := User.mk (nextId w) n e (encrypt p (genSalt saltRounds (drawn w))) in
  exists w1,
    createUser req w = (Sent (ok (toObject u)), w1)
    /\ users w1 = (users w ++ [u])%list
    /\ forall lreq,
         member (body lreq) "email" = inr (VStr e) ->
         member (body lreq) "password" = inr (VStr p) ->
         exists r w2, login lreq w1 = (Sent r, w2)
                      /\ status r = 200
                      /\ dataField "user" r = Some (toObject u).
Proof.
  intros Hvalid Hname Hemail Hpw Hup Hfree Hcmp Hsec Hkey u.
  destruct (member_string_object _ _ _ Hpw) as [fs Hbody].
  rewrite Hbody in Hname, Hemail.
  assert (Hcreate :
            exists w1, createUser req w = (Sent (ok (toObject u)), w1)
                       /\ users w1 = (users w ++ [u])%list
                       /\ dbUp w1 = true /\ JWT_SECRET w1 = Some key).
  { unfold createUser, asyncHandler, bind, lift, ret.
    rewrite Hvalid. cbn [isEmpty]. rewrite Hpw. unfold hashSync.
    rewrite Hbody. cbn [setMember].
    unfold userController.createUser, userController.query.
    cbn [dbUp logCall drawSalt users nextId].
    rewrite Hup.
    rewrite (member_assocSet_other "password" "name") by discriminate.
    rewrite (member_assocSet_other "password" "email") by discriminate.
    rewrite member_assocSet_same, Hname, Hemail, Hfree.
    eexists. split; [reflexivity|]. cbn. repeat split; assumption. }
  destruct Hcreate as (w1 & Hc & Husers & Hup1 & Hsec1).
  exists w1. split; [exact Hc|]. split; [exact Husers|].
  intros lreq Hlemail Hlpw.
  assert (Hfind : find (userController.byEmail (VStr e)) (users w1) = Some u).
  { rewrite Husers. apply find_app_new; [exact Hfree|].
    cbn. apply String.eqb_refl. }
  rewrite (login_success lreq w1 (VStr e) u p key Hup1 Hlemail Hfind Hlpw Hcmp Hsec1 Hkey).
  eexists. eexists. split; [reflexivity|]. split; reflexivity.
Qed.

Lemma register_then_login_witness :
  let u := User.mk 2 "Bob" "bob@example.com"
                   (@encrypt sampleCrypto "builder" (@genSalt sampleCrypto saltRounds 1)) in
  exists w1,
    @createUser sampleCrypto specValidators
                (postCreate (registration "Bob" "bob@example.com" "builder")) world1
    = (Sent (ok (toObject u)), w1)
    /\ users w1 = [alice; u]
    /\ exists r w2,
         @login sampleCrypto specValidators
                (postLogin (credentials "bob@example.com" "builder")) w1 = (Sent r, w2)
         /\ status r = 200
         /\ dataField "user" r = Some (toObject u).
Proof.
  assert (Hkey : "s3cret" <> EmptyString) by discriminate.
  destruct (@register_then_login sampleCrypto specValidators
              (postCreate (registration "Bob" "bob@example.com" "builder")) world1
              "Bob" "bob@example.com" "builder" "s3cret"
              eq_refl eq_refl eq_refl eq_refl eq_refl eq_refl eq_refl eq_refl Hkey)
    as (w1 & Hc & Hu & Hl).
  exists w1. split; [exact Hc|]. split; [exact Hu|].
  apply (Hl (postLogin (credentials "bob@example.com" "builder"))); reflexivity.
Defined.

(** X9: without a signing secret login hands out no token.  When
    [JWT_SECRET] is missing or empty, everything the login route sends is
    a 404, and correct credentials end in the signing error being handed
    to [next]. *)
Theorem login_without_secret `{Crypto} `{Validators} (req : Request) (w : World) :
  JWT_SECRET w = None \/ JWT_SECRET w = Some EmptyString ->
  (forall r w', login req w = (Sent r, w') -> status r = 404)
  /\ (forall addr u plain,
         dbUp w = true ->
         member (body req) "email" = inr addr ->
         find (userController.byEmail addr) (users w) = Some u ->
         member (body req) "password" = inr (VStr plain) ->
         compare plain (User.password u) = true ->
         login req w
         = (Forwarded (Error "secretOrPrivateKey must have a value"),
            logCall (FindByEmail addr) w)).
Proof.
  intros Hnone. split.
  - intros r w' Hsent. apply login_sent in Hsent.
    destruct Hsent as (addr & _ & _ & _ & [[_ Hr] | (u & plain & _ & _ & Hcase)]).
    + subst r. reflexivity.
    + destruct Hcase as [[_ Hr] | (_ & key & Hsec & Hkey & _)].
      * subst r. reflexivity.
      * destruct Hnone as [E|E]; rewrite E in Hsec; [discriminate|].
        inversion Hsec; subst key. contradiction Hkey. reflexivity.
  - intros addr u plain Hup Haddr Hfind Hplain Hcmp. unfold login. run.
    rewrite Haddr, Hup, Hfind. cbn [userController.orNull].
    rewrite truthy_toObject, Hplain, password_of_toObject.
    unfold compareSync, ret. rewrite Hcmp, id_of_toObject.
    unfold issue, jwt_sign, bind, ask, throw. cbn [JWT_SECRET logCall].
    destruct Hnone as [E|E]; rewrite E; reflexivity.
Qed.

Lemma login_without_secret_witness :
  @login sampleCrypto specValidators
         (postLogin (credentials "alice@example.com" "wonderland")) world1_nosecret
  = (Forwarded (Error "secretOrPrivateKey must have a value"),
     logCall (FindByEmail (VStr "alice@example.com")) world1_nosecret).
Proof.
  apply (proj2 (@login_without_secret sampleCrypto specValidators
                  (postLogin (credentials "alice@example.com" "wonderland"))
                  world1_nosecret (or_introl eq_refl))
               (VStr "alice@example.com") alice "wonderland");
    reflexivity.
Defined.

(** X10: on login a password that is not a string is an error, not a
    rejection.  When the email is that of a stored user and the submitted
    password is absent or not a string, the login route sends nothing and
    hands to [next] the argument error of [bcrypt.compareSync]: "data and
    hash arguments required" for an absent or null password, "data must
    be a string or Buffer and hash must be a string" for any other value;
    its only effect on the world is the lookup. *)
Theorem password_must_be_a_string `{Crypto} `{Validators}
        (req : Request) (w : World) (v addr : value) (u : User.t) :
  dbUp w = true ->
  member (body req) "email" = inr addr ->
  find (userController.byEmail addr) (users w) = Some u ->
  member (body req) "password" = inr v -> isStr v = false ->
  login req w
  = (Forwarded (compareArgumentError v), logCall (FindByEmail addr) w).
Proof.
  intros Hup Haddr Hfind Hpw Hstr. unfold login. run.
  rewrite Haddr, Hup, Hfind. cbn [userController.orNull].
  rewrite truthy_toObject, Hpw, password_of_toObject.
  destruct v; try discriminate; reflexivity.
Qed.

Lemma password_must_be_a_string_witness :
  @login sampleCrypto specValidators
         (postLogin (VObj [ ("email", VStr "alice@example.com") ])) world1
  = (Forwarded (Error "data and hash arguments required"),
     logCall (FindByEmail (VStr "alice@example.com")) world1)
  /\ @login sampleCrypto specValidators
            (postLogin (VObj [ ("email", VStr "alice@example.com");
                               ("password", VNum 12345) ])) world1
     = (Forwarded (Error "data must be a string or Buffer and hash must be a string"),
        logCall (FindByEmail (VStr "alice@example.com")) world1).
Proof.
  split.
  - apply (@password_must_be_a_string sampleCrypto specValidators
             (postLogin (VObj [ ("email", VStr "alice@example.com") ]))
             world1 VUndefined (VStr "alice@example.com") alice);
      reflexivity.
  - apply (@password_must_be_a_string sampleCrypto specValidators
             (postLogin (VObj [ ("email", VStr "alice@example.com");
                                ("password", VNum 12345) ]))
             world1 (VNum 12345) (VStr "alice@example.com") alice);
      reflexivity.
Defined.

(** X11: the reading routes only read.  Whatever the request and however
    it ends, the listing, fetch and login routes leave the stored users,
    the next identity and the salt count as they found them. *)
Theorem reading_routes_keep_store `{Crypto} `{Validators}
        (req : Request) (w : World) :
  sameStore w (snd (listUsers req w))
  /\ sameStore w (snd (fetchUser req w))
  /\ sameStore w (snd (login req w)).
Proof.
  unfold sameStore. repeat apply conj.
  all: try (unfold listUsers; run; destruct (dbUp w); reflexivity).
  all: try (unfold fetchUser; run;
            destruct (isEmpty _); [|reflexivity];
            destruct (dbUp w); [|reflexivity];
            destruct (negb _); reflexivity).
  all: unfold login; run;
    (destruct (member (body req) "email") as [e|addr]; [reflexivity|]);
    (destruct (dbUp w); [|reflexivity]);
    (destruct (find (userController.byEmail addr) (users w)) as [u|];
     cbn [userController.orNull]; [|reflexivity]);
    rewrite truthy_toObject;
    (destruct (member (body req) "password") as [e|plain]; [reflexivity|]);
    rewrite password_of_toObject;
    (destruct plain; unfold compareSync, throw, ret; try reflexivity);
    (destruct (compare s (User.password u)); [|reflexivity]);
    rewrite id_of_toObject;
    unfold issue, jwt_sign, bind, ask, ret, throw; cbn [JWT_SECRET logCall];
    (destruct (JWT_SECRET w) as [key|]; [|reflexivity]);
    (destruct (String.eqb key EmptyString); [reflexivity|]);
    rewrite ms_1h; reflexivity.
Qed.
